(** * getconf: the layered configuration getter of [getconf/base.py]

    A shallow embedding of [ConfigGetter] (construction, the lookup chain
    environment / parsed files / default table / caller default, the typed
    accessors and [list_keys]) together with the properties its
    specification states about it.

    Conventions of the embedding.
    - Python text ([unicode]) is represented by its UTF-8 encoding, a Rocq
      [string] of bytes; a byte string is a [string] too, and decoding it
      checks that it is well-formed UTF-8.  Case mapping and the whitespace
      class follow Python on the ASCII range; characters outside ASCII have
      no case and are not whitespace.
    - A Python exception is a constructor of [exn]; a call that may raise
      returns an [outcome].
    - The getter's methods run in a small state-and-exception monad whose
      state is the object itself plus a ghost log of the sources that were
      read, so that "this source was (not) consulted" can be stated.
    - What lives outside the repository (the process environment, the file
      system, [glob], [ConfigParser], the builtins [int] and [float]) is
      gathered in the records [Interp] and [World]. *)

From Stdlib Require Import ZArith Ascii String List Sorted Permutation Lia.
From Stdlib Require Import Floats.SpecFloat.
From stdpp Require Import base option list strings gmap sets sorting pretty.

Local Open Scope Z_scope.
Local Open Scope stdpp_scope.

(** ** Text: the methods of Python's text type used by the getter *)

Module Text.

Definition code (c : ascii) : N := N_of_ascii c.

Definition is_upper (c : ascii) : bool :=
  ((65 <=? code c) && (code c <=? 90))%N.

Definition is_lower (c : ascii) : bool :=
  ((97 <=? code c) && (code c <=? 122))%N.

(** [unicode.isspace] on one character: tab, line feed, vertical tab, form
    feed, carriage return, the four separators 28..31 and the space. *)
Definition is_space (c : ascii) : bool :=
  (((9 <=? code c) && (code c <=? 13))
   || ((28 <=? code c) && (code c <=? 32)))%N.

Definition lower_char (c : ascii) : ascii :=
  if is_upper c then ascii_of_N (code c + 32) else c.

Definition upper_char (c : ascii) : ascii :=
  if is_lower c then ascii_of_N (code c - 32) else c.

Fixpoint map_chars (f : ascii → ascii) (s : string) : string :=
  match s with
  | EmptyString => EmptyString
  | String c s' => String (f c) (map_chars f s')
  end.

(** [s.lower()] and [s.upper()]. *)
Definition lower : string → string := map_chars lower_char.
Definition upper : string → string := map_chars upper_char.

Definition is_empty (s : string) : bool :=
  match s with EmptyString => true | _ => false end.


Fixpoint lstrip (s : string) : string :=
  match s with
  | EmptyString => EmptyString
  | String c s' => if is_space c then lstrip s' else s
  end.

Fixpoint rstrip (s : string) : string :=
  match s with
  | EmptyString => EmptyString
  | String c s' =>
      let r := rstrip s' in
      if is_space c && is_empty r then EmptyString else String c r
  end.

(** [s.strip()]: whitespace removed at both ends. *)
Definition strip (s : string) : string := rstrip (lstrip s).

(** [sep.join(pieces)]. *)
Fixpoint join (sep : string) (pieces : list string) : string :=
  match pieces with
  | [] => EmptyString
  | [p] => p
  | p :: ps => p +:+ sep +:+ join sep ps
  end.

(** [s.split(sep)] for a non-empty [sep]: the text is cut at every
    occurrence of [sep] found scanning from the left, an occurrence being
    consumed whole ([skip] counts the characters of the occurrence still to
    be passed over).  The result always has at least one piece. *)
Fixpoint split_go (sep : string) (skip : nat) (s : string) : list string :=
  match s with
  | EmptyString => [EmptyString]
  | String c s' =>
      match skip with
      | S k => split_go sep k s'
      | O =>
          if String.prefix sep s
          then EmptyString :: split_go sep (String.length sep - 1) s'
          else match split_go sep 0 s' with
               | p :: ps => String c p :: ps
               | [] => [String c EmptyString]
               end
      end
  end.

Definition split (sep s : string) : list string := split_go sep 0 s.

(** ['.' in key] followed by [key.split('.', 1)]: the text before the first
    dot and the text after it, or [None] when there is no dot. *)
Fixpoint split_dot (s : string) : option (string * string) :=
  match s with
  | EmptyString => None
  | String c s' =>
      if Ascii.eqb c "."%char then Some (EmptyString, s')
      else match split_dot s' with
           | Some (a, b) => Some (String c a, b)
           | None => None
           end
  end.





(** [c in s] for one character. *)
Fixpoint contains (c : ascii) (s : string) : bool :=
  match s with
  | EmptyString => false
  | String d s' => Ascii.eqb d c || contains c s'
  end.

(** Some character of [s] is a lower-case ASCII letter. *)
Fixpoint has_lower (s : string) : bool :=
  match s with
  | EmptyString => false
  | String c s' => is_lower c || has_lower s'
  end.

(** A continuation byte of a multi-byte sequence. *)
Definition is_cont (c : ascii) : bool :=
  ((128 <=? code c) && (code c <=? 191))%N.

(** Well-formed UTF-8 as Python 2 decodes it: lead bytes 194..223 take one
    continuation byte, 224..239 two, 240..244 three; over-long forms and
    code points above U+10FFFF are refused. *)
Fixpoint utf8_valid (s : string) : bool :=
  match s with
  | EmptyString => true
  | String a s1 =>
      let n := code a in
      if (n <? 128)%N then utf8_valid s1
      else if ((194 <=? n) && (n <=? 223))%N then
        match s1 with
        | String b s2 => is_cont b && utf8_valid s2
        | _ => false
        end
      else if ((224 <=? n) && (n <=? 239))%N then
        match s1 with
        | String b (String c s3) =>
            is_cont b && is_cont c
            && negb ((n =? 224) && (code b <? 160))%N && utf8_valid s3
        | _ => false
        end
      else if ((240 <=? n) && (n <=? 244))%N then
        match s1 with
        | String b (String c (String d s4)) =>
            is_cont b && is_cont c && is_cont d
            && negb ((n =? 240) && (code b <? 144))%N
            && negb ((n =? 244) && (143 <? code b))%N && utf8_valid s4
        | _ => false
        end
      else false
  end.

(** [b.decode('utf-8')]; [None] stands for [UnicodeDecodeError]. *)
Definition decode_utf8 (b : string) : option string :=
  if utf8_valid b then Some b else None.

End Text.

(** ** Exceptions, outcomes and Python values *)

Inductive exn :=
  | NotFound            (* getconf.base.NotFound *)
  | KeyError
  | AssertionError
  | ValueError
  | TypeError
  | OverflowError
  | UnicodeDecodeError
  | NoSectionError      (* configparser *)
  | NoOptionError       (* configparser *)
  | InterpolationError  (* configparser: a value could not be interpolated *)
  | ParsingError.       (* configparser *)

Global Instance exn_eq_dec : EqDecision exn.
Proof. solve_decision. Defined.

Inductive outcome (A : Type) :=
  | Ok (a : A)
  | Raise (e : exn).
Arguments Ok {A} a.
Arguments Raise {A} e.

(** The values that travel through the getter: defaults, entries of the
    default table and results of the accessors.  A float is an IEEE binary64
    number, given by its specification ([prec = 53], [emax = 1024]). *)
#[warnings="-register-all"]
Inductive value :=
  | VNone
  | VText (s : string)
  | VBool (b : bool)
  | VInt (n : Z)
  | VFloat (f : spec_float)
  | VList (items : list value)
  | VTuple (items : list value).

(** [ConfigKey = namedtuple('ConfigKey', ['section', 'entry', 'envvar', 'doc'])] *)
Record ConfigKey := {
  section : string;
  entry : string;
  envvar : string;
  doc : string
}.

Global Instance ConfigKey_eq_dec : EqDecision ConfigKey.
Proof. solve_decision. Defined.

Definition ConfigKey_to_tuple (k : ConfigKey) : string * string * string * string :=
  (section k, entry k, envvar k, doc k).

Definition ConfigKey_of_tuple (t : string * string * string * string) : ConfigKey :=
  let '(s, e, v, d) := t in {| section := s; entry := e; envvar := v; doc := d |}.

Global Instance ConfigKey_countable : Countable ConfigKey.
Proof.
  apply (inj_countable' ConfigKey_to_tuple ConfigKey_of_tuple).
  by intros [].
Defined.

(** ** Ordering: what [sorted] compares *)

(** Tuples compare lexicographically: the first components decide unless they
    are equal. *)
Definition lex_le {A B} (RA : relation A) (RB : relation B) : relation (A * B) :=
  λ p q, (RA p.1 q.1 ∧ p.1 ≠ q.1) ∨ (p.1 = q.1 ∧ RB p.2 q.2).

Global Instance lex_le_dec {A B} (RA : relation A) (RB : relation B)
  `{!EqDecision A, !RelDecision RA, !RelDecision RB} : RelDecision (lex_le RA RB).
Proof. intros p q. unfold lex_le. apply _. Defined.

(** A named tuple compares as the tuple of its fields, text by code point. *)
Definition ConfigKey_le : relation ConfigKey :=
  λ k1 k2,
    lex_le (lex_le (lex_le String.le String.le) String.le) String.le
      (ConfigKey_to_tuple k1) (ConfigKey_to_tuple k2).

Global Instance ConfigKey_le_dec : RelDecision ConfigKey_le.
Proof. intros k1 k2. unfold ConfigKey_le. apply _. Defined.

(** The builtin [sorted]: any stable sort gives the same list on a total
    order whose equivalent elements are equal; merge sort is used. *)
Definition sorted {A} (R : relation A) `{!RelDecision R} (l : list A) : list A :=
  merge_sort R l.

(** ** The interpreter and the world around the getter *)

(** [compat.PY2] and the builtins whose tables are not reproduced here:
    [int_of_text] and [float_of_text] are [int(s)] and [float(s)] on text
    ([None]: [ValueError], the text is malformed); [text_of_float] is the text
    form of a float and [repr] the representation of an item of a sequence.

    [interpolate] is the interpolation that [compat.configparser.ConfigParser]
    applies to a value its [get] has found ([BasicInterpolation.before_get]
    in Python 3, [ConfigParser._interpolate] in Python 2):
    [interpolate section option rawval vars] is the text that [rawval], the
    stored value of [option] in [section], stands for, [vars] being the
    options visible from the section; [None]: the interpolation fails, which
    raises an error that is neither [NoSectionError] nor [NoOptionError]. *)
Record Interp := {
  PY2 : bool;
  int_of_text : string → option Z;
  float_of_text : string → option spec_float;
  text_of_float : spec_float → string;
  repr : value → string;
  interpolate : string → string → string → gmap string string → option string
}.

(** A text without a percent sign has nothing to interpolate: the
    interpolations of Python 2 and of Python 3 both hand it back as it is. *)
Definition keeps_plain_text (py : Interp) : Prop :=
  ∀ section option rawval vars,
    Text.contains "%" rawval = false →
    interpolate py section option rawval vars = Some rawval.

(** ** configparser: the standard parser, as far as the getter uses it *)

Module configparser.

(** What [ConfigParser.read] meets at a path: a file it cannot open (it is
    skipped), a file that violates the INI grammar, or the options the file
    gives to each section, named as the parser stores them. *)
Inductive file :=
  | Missing
  | Malformed
  | Ini (content : gmap string (gmap string string)).

Definition DEFAULTSECT : string := "DEFAULT".

(** Option names are looked up through [optionxform], lower-casing. *)
Definition optionxform : string → string := Text.lower.

(** Reading one file on top of what is stored: section by section, the
    options of the file replace stored options of the same name. *)
Definition overlay (content store : gmap string (gmap string string))
  : gmap string (gmap string string) :=
  union_with (λ new old, Some (new ∪ old)) content store.

(** [parser.read(filenames)]: the parser after reading and the list of the
    files that were read. *)
Fixpoint read (open : string → file) (filenames : list string)
    (store : gmap string (gmap string string))
  : outcome (gmap string (gmap string string) * list string) :=
  match filenames with
  | [] => Ok (store, [])
  | f :: rest =>
      match open f with
      | Missing => read open rest store
      | Malformed => Raise ParsingError
      | Ini content =>
          match read open rest (overlay content store) with
          | Ok (store', read_ok) => Ok (store', f :: read_ok)
          | Raise e => Raise e
          end
      end
  end.

(** The options visible from a section: its own hide those of the
    [DEFAULT] section; an unknown section other than [DEFAULT] is an error. *)
Definition unify_values (store : gmap string (gmap string string))
    (section : string) : outcome (gmap string string) :=
  match
    match store !! section with
    | Some d => Ok d
    | None => if decide (section = DEFAULTSECT) then Ok ∅ else Raise NoSectionError
    end
  with
  | Raise e => Raise e
  | Ok sectiondict =>
      Ok (sectiondict ∪ default (∅ : gmap string string) (store !! DEFAULTSECT))
  end.

(** [parser.get(section, option)]: an option found neither in the section
    nor in [DEFAULT] is an error; the value found is interpolated before it
    is handed back, and a failure of the interpolation is an error too. *)
Definition get
    (interpolate : string → string → string → gmap string string → option string)
    (store : gmap string (gmap string string))
    (section option : string) : outcome string :=
  match unify_values store section with
  | Raise e => Raise e
  | Ok d =>
      let option := optionxform option in
      match d !! option with
      | None => Raise NoOptionError
      | Some value =>
          match interpolate section option value d with
          | Some text => Ok text
          | None => Raise InterpolationError
          end
      end
  end.

(** *** [BasicInterpolation], the interpolation of Python 3's parser *)

Definition MAX_INTERPOLATION_DEPTH : nat := 10.

(** The name of a reference [%(name)s], read from what follows [%(]: the
    characters up to the first closing parenthesis, one at least, with an
    [s] right after the parenthesis. *)
Fixpoint reference_name (s : string) : option string :=
  match s with
  | EmptyString => None
  | String c s' =>
      if Ascii.eqb c ")" then None
      else if String.prefix ")s" s' then Some (String c EmptyString)
      else String c <$> reference_name s'
  end.

(** The loop of [_interpolate_some] over a text: the characters before a
    percent sign are kept, [%%] gives a percent sign and [%(name)s] the value
    of [name] among [vars], which is interpolated in turn (by [nested]) when
    it has a percent sign; a percent sign followed by anything else, a
    malformed reference and an unknown name are errors.  [skip] counts the
    characters of a converted sequence that remain to be passed over. *)
Fixpoint interpolate_loop (nested : string → option string)
    (vars : gmap string string) (skip : nat) (rest : string) : option string :=
  match rest with
  | EmptyString => Some EmptyString
  | String c rest' =>
      match skip with
      | S k => interpolate_loop nested vars k rest'
      | O =>
          if negb (Ascii.eqb c "%") then
            String c <$> interpolate_loop nested vars 0 rest'
          else
            match rest' with
            | EmptyString => None
            | String d after =>
                if Ascii.eqb d "%" then
                  String "%" <$> interpolate_loop nested vars 1 rest'
                else if Ascii.eqb d "(" then
                  match reference_name after with
                  | None => None
                  | Some name =>
                      match vars !! optionxform name with
                      | None => None
                      | Some v =>
                          match (if Text.contains "%" v then nested v else Some v),
                                interpolate_loop nested vars
                                  (String.length name + 3) rest' with
                          | Some piece, Some tail => Some (piece +:+ tail)
                          | _, _ => None
                          end
                      end
                  end
                else None
            end
      end
  end.

(** [_interpolate_some]: references nested deeper than
    [MAX_INTERPOLATION_DEPTH] are an error; [levels] is the number of levels
    that may still be entered. *)
Fixpoint interpolate_some (levels : nat) (vars : gmap string string)
    (rest : string) : option string :=
  match levels with
  | O => None
  | S levels' => interpolate_loop (interpolate_some levels' vars) vars 0 rest
  end.

(** [BasicInterpolation.before_get]; the section and the option only serve
    in the messages of the errors. *)
Definition before_get (section name value : string)
    (vars : gmap string string) : option string :=
  interpolate_some MAX_INTERPOLATION_DEPTH vars value.

(** *** Descriptions of the store, used to state what [read] achieves *)

(** Several contents laid over a store, one after the other. *)
Definition overlay_all (store : gmap string (gmap string string))
    (contents : list (gmap string (gmap string string)))
  : gmap string (gmap string string) :=
  foldl (λ store content, overlay content store) store contents.

(** [parser.get(section, option, raw=True)]: the value as it is stored,
    without interpolation. *)
Definition get_raw (store : gmap string (gmap string string))
    (section option : string) : outcome string :=
  match unify_values store section with
  | Raise e => Raise e
  | Ok d =>
      match d !! optionxform option with
      | None => Raise NoOptionError
      | Some value => Ok value
      end
  end.

(** The value stored for an option of a section, if any. *)
Definition lookup (store : gmap string (gmap string string))
    (section name : string) : option string :=
  store !! section ≫= (.!! name).

(** Among contents listed in reading order, the value given by the last
    one that defines the option of the section. *)
Fixpoint winner (contents : list (gmap string (gmap string string)))
    (section name : string) : option string :=
  match contents with
  | [] => None
  | c :: later =>
      match winner later section name with
      | Some v => Some v
      | None => lookup c section name
      end
  end.

Definition readable (open : string → file) (f : string) : bool :=
  match open f with Ini _ => true | _ => false end.

Definition malformed (open : string → file) (f : string) : bool :=
  match open f with Malformed => true | _ => false end.

(** The contents of the files of a list that can be opened, in order. *)
Definition contents_of (open : string → file) (filenames : list string)
  : list (gmap string (gmap string string)) :=
  omap (λ f, match open f with Ini c => Some c | _ => None end) filenames.

End configparser.

(** The process environment and the file system, as the constructor and the
    lookups read them.  [glob p] lists the matches of the pattern [p] in the
    order the file system yields them. *)
Record World := {
  environ : gmap string string;
  expanduser : string → string;
  abspath : string → string;
  isdir : string → bool;
  glob : string → list string;
  open_ini : string → configparser.file
}.

(** [os.path.join(path, name)] for a relative [name]. *)
Definition path_join (path name : string) : string :=
  if Text.is_empty path then name
  else if String.prefix "/" (String.rev path) then path +:+ name
  else path +:+ "/" +:+ name.

(** ** The getter object and its monad *)

Record ConfigGetter := {
  parser : gmap string (gmap string string);
  seen_keys : gset ConfigKey;
  namespace : string;
  defaults : gmap string (gmap string value);
  search_files : list string;
  found_files : list string
}.

(** Ghost events: which source a lookup read, and the deprecation warnings. *)
Inductive access :=
  | EnvRead (name : string)
  | ParserRead (section key : string)
  | DefaultsRead (section key : string)
  | Warned.

Global Instance access_eq_dec : EqDecision access.
Proof. solve_decision. Defined.

Record state := {
  self : ConfigGetter;
  log : list access
}.

Definition M (A : Type) : Type := state → outcome A * state.

Global Instance M_ret : MRet M := λ A a st, (Ok a, st).

Global Instance M_bind : MBind M := λ A B k m st,
  match m st with
  | (Ok a, st') => k a st'
  | (Raise e, st') => (Raise e, st')
  end.

Definition raise {A} (e : exn) : M A := λ st, (Raise e, st).

(** [try: m except e1, e2, ...: handler]; the state reached when the exception
    was raised is kept. *)
Definition try_except {A} (m : M A) (caught : list exn) (handler : M A) : M A :=
  λ st, match m st with
        | (Ok a, st') => (Ok a, st')
        | (Raise e, st') =>
            if bool_decide (e ∈ caught) then handler st' else (Raise e, st')
        end.

Definition lift {A} (o : outcome A) : M A := λ st, (o, st).
Definition get_self : M ConfigGetter := λ st, (Ok (self st), st).
Definition emit (a : access) : M unit :=
  λ st, (Ok tt, {| self := self st; log := log st ++ [a] |}).
Definition assert (b : bool) : M unit :=
  if b then mret tt else raise AssertionError.

(** [self.seen_keys.add(k)] *)
Definition seen_keys_add (k : ConfigKey) : M unit :=
  λ st,
    let o := self st in
    (Ok tt,
     {| self := {| parser := parser o;
                   seen_keys := {[ k ]} ∪ seen_keys o;
                   namespace := namespace o;
                   defaults := defaults o;
                   search_files := search_files o;
                   found_files := found_files o |};
        log := log st |}).

(** ** Builtins applied to values *)

(** The float nearest to an integer (ties to even). *)
Definition float_of_Z (n : Z) : spec_float := binary_normalize 53 1024 n 0 false.

(** [int(value)] *)
Definition py_int (py : Interp) (v : value) : outcome Z :=
  match v with
  | VText s =>
      match int_of_text py s with Some n => Ok n | None => Raise ValueError end
  | VBool b => Ok (if b then 1 else 0)
  | VInt n => Ok n
  | VFloat (S754_zero _) => Ok 0
  | VFloat (S754_infinity _) => Raise OverflowError
  | VFloat S754_nan => Raise ValueError
  | VFloat (S754_finite s m e) =>
      let magnitude := Z.shiftl (Z.pos m) e in
      Ok (if s then - magnitude else magnitude)
  | VNone | VList _ | VTuple _ => Raise TypeError
  end.

(** [float(value)] *)
Definition py_float (py : Interp) (v : value) : outcome spec_float :=
  match v with
  | VText s =>
      match float_of_text py s with Some f => Ok f | None => Raise ValueError end
  | VBool b => Ok (float_of_Z (if b then 1 else 0))
  | VInt n =>
      match float_of_Z n with
      | S754_infinity _ => Raise OverflowError
      | f => Ok f
      end
  | VFloat f => Ok f
  | VNone | VList _ | VTuple _ => Raise TypeError
  end.

(** [compat.text_type(value)] *)
Definition text_type (py : Interp) (v : value) : string :=
  match v with
  | VNone => "None"
  | VText s => s
  | VBool b => if b then "True" else "False"
  | VInt n => pretty n
  | VFloat f => text_of_float py f
  | VList items => "[" +:+ Text.join ", " (repr py <$> items) +:+ "]"
  | VTuple [item] => "(" +:+ repr py item +:+ ",)"
  | VTuple items => "(" +:+ Text.join ", " (repr py <$> items) +:+ ")"
  end.

(** [list(value)]; a text gives one item per character (exact on ASCII
    text; [getlist] never applies it to a text). *)
Definition py_list (v : value) : outcome (list value) :=
  match v with
  | VList items | VTuple items => Ok items
  | VText s => Ok (VText <$> ((λ c, String c EmptyString) <$> list_ascii_of_string s))
  | VNone | VBool _ | VInt _ | VFloat _ => Raise TypeError
  end.

Definition is_none (v : value) : bool :=
  match v with VNone => true | _ => false end.
(** [isinstance(v, unicode)] *)
Definition is_text (v : value) : bool :=
  match v with VText _ => true | _ => false end.
(** [isinstance(v, (list, tuple))] *)
Definition is_list_or_tuple (v : value) : bool :=
  match v with VList _ | VTuple _ => true | _ => false end.
(** [isinstance(v, bool)] *)
Definition is_bool (v : value) : bool :=
  match v with VBool _ => true | _ => false end.
(** [isinstance(v, int)]: [bool] is a subclass of [int]. *)
Definition is_int (v : value) : bool :=
  match v with VInt _ | VBool _ => true | _ => false end.
(** [isinstance(v, float)] *)
Definition is_float (v : value) : bool :=
  match v with VFloat _ => true | _ => false end.

(** ** class ConfigGetter *)

Section ConfigGetter.

Context (py : Interp) (os : World).

(** [_env_key] (base.py, lines 101-106): the namespace, the section when it
    is not empty, and the key, each upper-cased, joined by an underscore. *)
Definition _env_key (self : ConfigGetter) (key : string) (section : string) : string :=
  let args :=
    if Text.is_empty section then [namespace self; key]
    else [namespace self; section; key] in
  Text.join "_" (Text.upper <$> args).

(** The constructor's first loop (lines 73-81): [None] is skipped, every
    other candidate is expanded, made absolute and, when it is a directory,
    turned into the pattern of its entries. *)
Definition normalise (path : string) : string :=
  let path := abspath os (expanduser os path) in
  if isdir os path then path_join path "*" else path.

Definition collect_search_files (candidates : list (option string)) : list string :=
  foldl (λ search_files path,
           match path with
           | None => search_files
           | Some path => search_files ++ [normalise path]
           end) [] candidates.

(** The second loop (lines 83-89): the matches of each pattern, sorted, are
    appended when there are any. *)
Definition collect_config_files (search_files : list string) : list string :=
  foldl (λ final_config_files path,
           let directory_files := glob os path in
           match directory_files with
           | [] => final_config_files
           | _ => final_config_files ++ sorted String.le directory_files
           end) [] search_files.

(** [__init__] (lines 63-99); the message sent to the logger is left out. *)
Definition __init__ (namespace : string) (config_files : list (option string))
    (defaults : option (gmap string (gmap string value))) : outcome ConfigGetter :=
  let self0 :=
    {| parser := ∅; seen_keys := ∅; namespace := namespace;
       defaults := default ∅ defaults; search_files := []; found_files := [] |} in
  let extra_config_file := environ os !! _env_key self0 "config" "" in
  let search_files := collect_search_files (config_files ++ [extra_config_file]) in
  let final_config_files := collect_config_files search_files in
  match configparser.read (open_ini os) final_config_files (parser self0) with
  | Raise e => Raise e
  | Ok (parser, found_files) =>
      Ok {| parser := parser; seen_keys := ∅; namespace := namespace;
            defaults := default ∅ defaults; search_files := search_files;
            found_files := found_files |}
  end.

(** [os.environ[key]] *)
Definition environ_getitem (key : string) : M string :=
  emit (EnvRead key);;
  match environ os !! key with
  | Some value => mret value
  | None => raise KeyError
  end.

(** [value.decode('utf-8')] under [compat.PY2], the value itself otherwise. *)
Definition as_text (value : string) : M string :=
  if PY2 py then
    match Text.decode_utf8 value with
    | Some text => mret text
    | None => raise UnicodeDecodeError
    end
  else mret value.

(** [_read_env] (lines 108-117) *)
Definition _read_env (key : string) : M string :=
  value ← try_except (environ_getitem key) [KeyError] (raise NotFound);
  as_text value.

(** [self.parser.get(config_section, key)] *)
Definition parser_get (config_section key : string) : M string :=
  emit (ParserRead config_section key);;
  self ← get_self;
  lift (configparser.get (interpolate py) (parser self) config_section key).

(** [_read_parser] (lines 119-128) *)
Definition _read_parser (config_section key : string) : M string :=
  value ← try_except (parser_get config_section key)
            [NoSectionError; NoOptionError] (raise NotFound);
  as_text value.

(** [self.defaults[section][key]] *)
Definition defaults_getitem (section key : string) : M value :=
  emit (DefaultsRead section key);;
  self ← get_self;
  match defaults self !! section with
  | None => raise KeyError
  | Some table =>
      match table !! key with
      | None => raise KeyError
      | Some value => mret value
      end
  end.

(** [_read] (lines 130-146): three [try] blocks in a row, each returning
    when its source answers; the caller's default is what remains. *)
Definition _read (env_key section key : string) (default : value) : M value :=
  try_except (value ← _read_env env_key; mret (VText value)) [NotFound]
    (try_except (value ← _read_parser section key; mret (VText value)) [NotFound]
       (try_except (defaults_getitem section key) [KeyError]
          (mret default))).

(** [_get] (lines 148-157) *)
Definition _get (key : string) (default : value) (doc : string) : M value :=
  let '(section, key) :=
    match Text.split_dot key with
    | Some (section, key) => (section, key)
    | None => ("", key)
    end in
  self ← get_self;
  let env_key := _env_key self key section in
  let config_section := if Text.is_empty section then "DEFAULT" else section in
  value ← _read env_key config_section key default;
  seen_keys_add {| section := config_section; entry := key;
                   envvar := env_key; doc := doc |};;
  mret value.

(** [get] (lines 159-163), the deprecated entry point. *)
Definition get (key : string) (default : value) (doc : string) : M value :=
  assert (is_none default || is_text default);;
  emit Warned;;
  _get key default doc.

(** [getstr] (lines 165-168) *)
Definition getstr (key : string) (default : value) (doc : string) : M value :=
  assert (is_none default || is_text default);;
  _get key default doc.

(** [value.split(sep)]: an empty separator is refused. *)
Definition py_split (value sep : string) : outcome (list string) :=
  if Text.is_empty sep then Raise ValueError else Ok (Text.split sep value).

(** [getlist] (lines 170-191) *)
Definition getlist (key : string) (default : value) (doc : string) (sep : string)
  : M value :=
  assert (is_text default || is_none default || is_list_or_tuple default);;
  (if is_text default then emit Warned else mret tt);;
  value ← _get key default doc;
  match value with
  | VText text =>
      pieces ← lift (py_split text sep);
      let values := Text.strip <$> pieces in
      let values := filter (λ entry, Text.is_empty entry = false) values in
      mret (VList (VText <$> values))
  | VNone => mret VNone
  | _ => items ← lift (py_list value); mret (VList items)
  end.

Definition truthy_words : list string := ["on"; "true"; "yes"; "1"].

(** [getbool] (lines 193-203) *)
Definition getbool (key : string) (default : value) (doc : string) : M value :=
  assert (is_none default || is_bool default);;
  value ← _get key default doc;
  if is_none value then mret VNone
  else mret (VBool (bool_decide (Text.lower (text_type py value) ∈ truthy_words))).

(** [getint] (lines 205-211) *)
Definition getint (key : string) (default : value) (doc : string) : M value :=
  assert (is_none default || is_int default);;
  value ← _get key default doc;
  if is_none value then mret VNone
  else n ← lift (py_int py value); mret (VInt n).

(** [getfloat] (lines 213-219) *)
Definition getfloat (key : string) (default : value) (doc : string) : M value :=
  assert (is_none default || is_float default);;
  value ← _get key default doc;
  if is_none value then mret VNone
  else f ← lift (py_float py value); mret (VFloat f).

(** [list_keys] (lines 225-231) *)
Definition list_keys : M (list ConfigKey) :=
  self ← get_self;
  mret (sorted ConfigKey_le (elements (seen_keys self))).

(** [ConfigSectionGetter.__getitem__] (lines 240-241), the proxy being its
    section name. *)
Definition section_getitem (section key : string) : M value :=
  get (section +:+ "." +:+ key) (VText "") "".

(** *** Descriptions used to state the properties

    The definitions below are not code of the getter: they name what a
    lookup key stands for and spell the lookup chain out as a function,
    which [_read] and [_get] are then proved to compute. *)

(** The section token and the entry of a lookup key. *)
Definition key_parts (key : string) : string * string :=
  match Text.split_dot key with
  | Some (section, entry) => (section, entry)
  | None => ("", key)
  end.

Definition config_section_of (section : string) : string :=
  if Text.is_empty section then "DEFAULT" else section.

Definition env_key_of (self : ConfigGetter) (key : string) : string :=
  _env_key self (key_parts key).2 (key_parts key).1.

(** The record a lookup of [key] leaves in [seen_keys]. *)
Definition seen_record (self : ConfigGetter) (key doc : string) : ConfigKey :=
  {| section := config_section_of (key_parts key).1;
     entry := (key_parts key).2;
     envvar := env_key_of self key;
     doc := doc |}.

(** A raw value of the environment or of the parser, as text. *)
Definition decode (raw : string) : outcome string :=
  if PY2 py then
    match Text.decode_utf8 raw with
    | Some text => Ok text
    | None => Raise UnicodeDecodeError
    end
  else Ok raw.

Definition table_lookup (self : ConfigGetter) (section key : string) : option value :=
  defaults self !! section ≫= (.!! key).

Definition as_value (o : outcome string) : outcome value :=
  match o with Ok text => Ok (VText text) | Raise e => Raise e end.

(** The chain as a function: the outcome and the sources read, in order. *)
Definition resolve (self : ConfigGetter) (env_key section key : string)
    (default : value) : outcome value * list access :=
  match environ os !! env_key with
  | Some raw => (as_value (decode raw), [EnvRead env_key])
  | None =>
      match configparser.get (interpolate py) (parser self) section key with
      | Ok raw =>
          (as_value (decode raw), [EnvRead env_key; ParserRead section key])
      | Raise e =>
          if bool_decide (e ∈ [NoSectionError; NoOptionError]) then
            (Ok (from_option id default (table_lookup self section key)),
             [EnvRead env_key; ParserRead section key; DefaultsRead section key])
          else (Raise e, [EnvRead env_key; ParserRead section key])
      end
  end.

(** The value the chain resolves for a lookup key, and the sources it reads. *)
Definition resolved (self : ConfigGetter) (key : string) (default : value)
  : outcome value :=
  (resolve self (env_key_of self key) (config_section_of (key_parts key).1)
     (key_parts key).2 default).1.

Definition consulted (self : ConfigGetter) (key : string) (default : value)
  : list access :=
  (resolve self (env_key_of self key) (config_section_of (key_parts key).1)
     (key_parts key).2 default).2.

(** The state after some more sources were read. *)
Definition logged (st : state) (accesses : list access) : state :=
  {| self := self st; log := log st ++ accesses |}.

(** The state after a record was added to [seen_keys]. *)
Definition with_seen (k : ConfigKey) (st : state) : state :=
  {| self := {| parser := parser (self st);
                seen_keys := {[ k ]} ∪ seen_keys (self st);
                namespace := namespace (self st);
                defaults := defaults (self st);
                search_files := search_files (self st);
                found_files := found_files (self st) |};
     log := log st |}.

(** The variable that names the additional configuration file, and the list
    of files the constructor hands to the parser. *)
Definition config_variable (namespace : string) : string :=
  Text.upper namespace +:+ "_CONFIG".

Definition final_config_files (namespace : string)
    (config_files : list (option string)) : list string :=
  collect_config_files
    (collect_search_files (config_files ++ [environ os !! config_variable namespace])).

(** What each accessor makes of the value the chain resolved. *)
Definition coerce_list (sep : string) (v : value) : outcome value :=
  match v with
  | VText text =>
      match py_split text sep with
      | Ok pieces =>
          Ok (VList (VText <$> filter (λ entry, Text.is_empty entry = false)
                                      (Text.strip <$> pieces)))
      | Raise e => Raise e
      end
  | VNone => Ok VNone
  | _ =>
      match py_list v with
      | Ok items => Ok (VList items)
      | Raise e => Raise e
      end
  end.

Definition coerce_bool (v : value) : outcome value :=
  if is_none v then Ok VNone
  else Ok (VBool (bool_decide (Text.lower (text_type py v) ∈ truthy_words))).

Definition coerce_int (v : value) : outcome value :=
  if is_none v then Ok VNone
  else match py_int py v with Ok n => Ok (VInt n) | Raise e => Raise e end.

Definition coerce_float (v : value) : outcome value :=
  if is_none v then Ok VNone
  else match py_float py v with Ok f => Ok (VFloat f) | Raise e => Raise e end.

(** A lookup followed by a coercion: an exception of the lookup passes
    through, one of the coercion is raised in the state after the lookup. *)
Definition then_coerce (coerce : value → outcome value)
    (r : outcome value * state) : outcome value * state :=
  match r with
  | (Ok v, st') => (coerce v, st')
  | (Raise e, st') => (Raise e, st')
  end.

(** What an accessor returns, from what the chain resolves. *)
Definition coerced (coerce : value → outcome value) (o : outcome value)
  : outcome value :=
  match o with Ok v => coerce v | Raise e => Raise e end.

(** *** The public calls, as steps on the state *)

Inductive call :=
  | Get (key : string) (default : value) (doc : string)
  | Getstr (key : string) (default : value) (doc : string)
  | Getlist (key : string) (default : value) (doc : string) (sep : string)
  | Getbool (key : string) (default : value) (doc : string)
  | Getint (key : string) (default : value) (doc : string)
  | Getfloat (key : string) (default : value) (doc : string)
  | SectionItem (section key : string)
  | ListKeys.

(** The state a call leaves, whether it returns or raises. *)
Definition exec (c : call) (st : state) : state :=
  match c with
  | Get key default doc => (get key default doc st).2
  | Getstr key default doc => (getstr key default doc st).2
  | Getlist key default doc sep => (getlist key default doc sep st).2
  | Getbool key default doc => (getbool key default doc st).2
  | Getint key default doc => (getint key default doc st).2
  | Getfloat key default doc => (getfloat key default doc st).2
  | SectionItem section key => (section_getitem section key st).2
  | ListKeys => (list_keys st).2
  end.

Definition exec_all (calls : list call) (st : state) : state :=
  foldl (λ st c, exec c st) st calls.

(** A record as a lookup builds it: its section comes from a dot-free part
    of a key ([DEFAULT] standing for the empty part) and its variable name is
    the one [_env_key] gives for that part and the entry. *)
Definition built_by_lookup (self : ConfigGetter) (k : ConfigKey) : Prop :=
  ∃ token, Text.contains "." token = false
           ∧ section k = config_section_of token
           ∧ envvar k = _env_key self (entry k) token.

End ConfigGetter.

(** ** A concrete interpreter and world, to run the getter on *)

Module Demo.

Fixpoint digits (acc : Z) (s : string) : option Z :=
  match s with
  | EmptyString => Some acc
  | String c s' =>
      match Ascii.is_nat c with
      | Some d => digits (10 * acc + Z.of_nat d) s'
      | None => None
      end
  end.

(** Decimal integers: surrounding whitespace, an optional sign, digits. *)
Definition decimal (s : string) : option Z :=
  match Text.strip s with
  | EmptyString => None
  | String "-" (String _ _ as ds) => Z.opp <$> digits 0 ds
  | String "+" (String _ _ as ds) => digits 0 ds
  | ds => digits 0 ds
  end.

(** A Python 2 interpreter.  Its parser is run on values without a percent
    sign only, which every interpolation hands back as they are. *)
Definition py : Interp :=
  {| PY2 := true;
     int_of_text := decimal;
     float_of_text := λ _, None;
     text_of_float := λ _, "nan";
     repr := λ _, "?";
     interpolate := configparser.before_get |}.

(** A Python 3 interpreter, with the interpolation of its parser. *)
Definition py3 : Interp :=
  {| PY2 := false;
     int_of_text := decimal;
     float_of_text := λ _, None;
     text_of_float := λ _, "nan";
     repr := λ _, "?";
     interpolate := configparser.before_get |}.

Definition base_ini : gmap string (gmap string string) :=
  {[ "DEFAULT" := {[ "env" := "dev" ]};
     "psql" := {[ "server" := "localhost:5432"; "port" := "5432" ]} ]}.

Definition local_ini : gmap string (gmap string string) :=
  {[ "psql" := {[ "server" := "db.local" ; "port" := "54x2" ]} ]}.

Definition extra_ini : gmap string (gmap string string) :=
  {[ "psql" := {[ "server" := "override" ]} ]}.

(** A store whose values use the interpolation syntax. *)
Definition templated_ini : gmap string (gmap string string) :=
  {[ "DEFAULT" := {[ "env" := "dev"; "host" := "%(env)s.example.org" ]};
     "psql" := {[ "name" := "%(env)s-db"; "url" := "psql://%(host)s/%(name)s";
                  "load" := "50%"; "ratio" := "100%%"; "user" := "%(owner)s";
                  "loop" := "%(loop)s" ]} ]}.

(** A file system with [/etc/app] holding two INI files (listed in the
    reverse of their sorted order), a third file [/tmp/extra.ini], and the
    process started in [/srv]. *)
Definition os (env : gmap string string) : World :=
  {| environ := env;
     expanduser := λ p, p;
     abspath := λ p,
       if Text.is_empty p then "/srv"
       else if String.prefix "/" p then p else "/srv/" +:+ p;
     isdir := λ p, bool_decide (p ∈ ["/etc/app"; "/srv"]);
     glob := λ p,
       if decide (p = "/etc/app/*") then ["/etc/app/50_local.ini"; "/etc/app/10_base.ini"]
       else if decide (p = "/tmp/extra.ini") then ["/tmp/extra.ini"]
       else [];
     open_ini := λ p,
       if decide (p = "/etc/app/10_base.ini") then configparser.Ini base_ini
       else if decide (p = "/etc/app/50_local.ini") then configparser.Ini local_ini
       else if decide (p = "/tmp/extra.ini") then configparser.Ini extra_ini
       else configparser.Missing |}.

Definition table : gmap string (gmap string value) :=
  {[ "" := {[ "debug" := VText "bare" ]};
     "DEFAULT" := {[ "debug" := VText "fallback" ]};
     "psql" := {[ "user" := VText "postgres" ]} ]}.

(** A getter over given sources, without going through the file system. *)
Definition getter (store : gmap string (gmap string string))
    (defaults : gmap string (gmap string value)) : ConfigGetter :=
  {| parser := store; seen_keys := ∅; namespace := "app";
     defaults := defaults; search_files := []; found_files := [] |}.

Definition start (self : ConfigGetter) : state := {| self := self; log := [] |}.

End Demo.

(** ** Facts about the text methods *)

Section TextFacts.

Import Text.

Lemma app_cons c a b : String c a +:+ b = String c (a +:+ b).
Proof. reflexivity. Qed.

Lemma app_empty_r s : s +:+ "" = s.
Proof. induction s as [|c s IH]; [done|]. by rewrite app_cons, IH. Qed.


Lemma is_empty_true s : is_empty s = true ↔ s = "".
Proof. by destruct s. Qed.


(** [prefix] decides "starts with". *)
Lemma prefix_iff sep s : String.prefix sep s = true ↔ ∃ r, s = sep +:+ r.
Proof.
  revert s. induction sep as [|c sep IH]; intros s.
  - destruct s; simpl; split; eauto.
  - destruct s as [|d s]; simpl.
    + split; [done|]. by intros [r ?].
    + destruct (ascii_dec c d) as [->|Hne].
      * rewrite IH. split; intros [r Hr]; exists r.
        -- by rewrite app_cons, <-Hr.
        -- rewrite app_cons in Hr. congruence.
      * split; [done|]. intros [r Hr]. rewrite app_cons in Hr. congruence.
Qed.

(** *** split *)










(** *** strip *)





(** *** lower *)

Lemma lower_char_idemp c : lower_char (lower_char c) = lower_char c.
Proof.
  unfold lower_char. destruct (is_upper c) eqn:Hc; [|by rewrite Hc].
  revert Hc. by destruct c as [[] [] [] [] [] [] [] []].
Qed.

Lemma lower_idemp s : lower (lower s) = lower s.
Proof.
  induction s as [|c s IH]; [done|].
  unfold lower in *. simpl. by rewrite lower_char_idemp, IH.
Qed.

Lemma lower_length s : String.length (lower s) = String.length s.
Proof. induction s as [|c s IH]; [done|]. unfold lower in *. simpl. by rewrite IH. Qed.

End TextFacts.

(** ** The definitions at work *)

Example split_demo :
  Text.split "," " a, b ,,c " = [" a"; " b "; ""; "c "].
Proof. reflexivity. Qed.

Example split_long_separator : Text.split "ab" "xabab" = ["x"; ""; ""].
Proof. reflexivity. Qed.

Example strip_demo : Text.strip "  a b  " = "a b".
Proof. reflexivity. Qed.

Example upper_demo : Text.upper "psql.Server_1" = "PSQL.SERVER_1".
Proof. reflexivity. Qed.

Example decode_demo :
  Text.decode_utf8 "caf" = Some "caf"
  ∧ Text.decode_utf8 (String (ascii_of_N 195) (String (ascii_of_N 169) "")) 
    = Some (String (ascii_of_N 195) (String (ascii_of_N 169) ""))
  ∧ Text.decode_utf8 (String (ascii_of_N 255) "") = None.
Proof. by split_and!. Qed.

Example sorted_demo :
  sorted String.le ["/etc/app/99_foo"; "/etc/app/10_base"; "/etc/app/50_x"]
  = ["/etc/app/10_base"; "/etc/app/50_x"; "/etc/app/99_foo"].
Proof. vm_compute. reflexivity. Qed.

Example key_parts_demo :
  key_parts "psql.server" = ("psql", "server")
  ∧ key_parts "a.b.c" = ("a", "b.c")
  ∧ key_parts "secret_key" = ("", "secret_key").
Proof. by split_and!. Qed.

Example env_key_demo :
  _env_key (Demo.getter ∅ ∅) "server" "psql" = "APP_PSQL_SERVER"
  ∧ _env_key (Demo.getter ∅ ∅) "secret_key" "" = "APP_SECRET_KEY".
Proof. by split_and!. Qed.

Example getint_demo :
  (getint Demo.py (Demo.os {[ "APP_PSQL_PORT" := " 6543 " ]}) "psql.port" (VInt 0) ""
     (Demo.start (Demo.getter Demo.base_ini Demo.table))).1 = Ok (VInt 6543)
  ∧ (getint Demo.py (Demo.os ∅) "psql.port" (VInt 0) ""
       (Demo.start (Demo.getter Demo.base_ini Demo.table))).1 = Ok (VInt 5432).
Proof. vm_compute. by split_and!. Qed.

Example parser_default_section_demo :
  let get := configparser.get configparser.before_get in
  get Demo.base_ini "psql" "ENV" = Ok "dev"
  ∧ get Demo.base_ini "DEFAULT" "env" = Ok "dev"
  ∧ get Demo.base_ini "mail" "env" = Raise NoSectionError
  ∧ get Demo.base_ini "psql" "user" = Raise NoOptionError.
Proof. vm_compute. by split_and!. Qed.

(** References are replaced by the values they name, those of [DEFAULT]
    included and nested ones too; a doubled percent sign gives one; a lone
    percent sign, an unknown name and a reference that never ends are
    errors.  The raw value is what is stored. *)
Example parser_interpolation_demo :
  let get := configparser.get configparser.before_get in
  get Demo.templated_ini "psql" "name" = Ok "dev-db"
  ∧ get Demo.templated_ini "psql" "url" = Ok "psql://dev.example.org/dev-db"
  ∧ get Demo.templated_ini "psql" "ratio" = Ok "100%"
  ∧ get Demo.templated_ini "psql" "load" = Raise InterpolationError
  ∧ get Demo.templated_ini "psql" "user" = Raise InterpolationError
  ∧ get Demo.templated_ini "psql" "loop" = Raise InterpolationError
  ∧ configparser.get_raw Demo.templated_ini "psql" "load" = Ok "50%"
  ∧ configparser.get_raw Demo.templated_ini "psql" "name" = Ok "%(env)s-db".
Proof. vm_compute. by split_and!. Qed.

(** ** Facts about the orders and about [sorted] *)

Section Order.

Context {A B : Type} (RA : relation A) (RB : relation B).

Global Instance lex_le_po `{!PartialOrder RA, !PartialOrder RB} :
  PartialOrder (lex_le RA RB).
Proof.
  split; [split|].
  - intros p. right. done.
  - intros p q r [[Hpq Hne]|[Heq Hpq]] [[Hqr Hne']|[Heq' Hqr]].
    + left. split; [by etrans|]. intros Heq. rewrite <-Heq in Hqr.
      apply Hne. by apply (anti_symm RA).
    + left. by rewrite <-Heq'.
    + left. by rewrite Heq.
    + right. split; [congruence|by etrans].
  - intros [a b] [a' b'] [[H1 Hne]|[Heq H1]] [[H2 Hne']|[Heq' H2]]; simpl in *.
    + destruct Hne. by apply (anti_symm RA).
    + by destruct Hne.
    + by destruct Hne'.
    + subst. f_equal. by apply (anti_symm RB).
Qed.

Global Instance lex_le_total `{!EqDecision A, !Total RA, !Total RB} :
  Total (lex_le RA RB).
Proof.
  intros p q. unfold lex_le. destruct (decide (p.1 = q.1)) as [Heq|Hne].
  - destruct (total RB p.2 q.2); [left|right]; right; done.
  - destruct (total RA p.1 q.1); [left|right]; left; split; done.
Qed.

End Order.

Lemma ConfigKey_to_tuple_inj k1 k2 :
  ConfigKey_to_tuple k1 = ConfigKey_to_tuple k2 → k1 = k2.
Proof. destruct k1, k2. unfold ConfigKey_to_tuple. simpl. congruence. Qed.

Global Instance ConfigKey_le_po : PartialOrder ConfigKey_le.
Proof.
  unfold ConfigKey_le. split; [split|].
  - intros k. reflexivity.
  - intros k1 k2 k3 ??. by etrans.
  - intros k1 k2 ??. apply ConfigKey_to_tuple_inj.
    by apply (anti_symm (lex_le (lex_le (lex_le String.le String.le) String.le) String.le)).
Qed.

Global Instance ConfigKey_le_total : Total ConfigKey_le.
Proof.
  intros k1 k2. unfold ConfigKey_le.
  apply (total (lex_le (lex_le (lex_le String.le String.le) String.le) String.le)).
Qed.

Section Sorted.

Context {A : Type} (R : relation A) `{!RelDecision R}.

Lemma sorted_nil : sorted R [] = [].
Proof. reflexivity. Qed.

Lemma sorted_Permutation l : sorted R l ≡ₚ l.
Proof. apply merge_sort_Permutation. Qed.

Lemma sorted_Sorted `{!Total R} l : Sorted R (sorted R l).
Proof. by apply Sorted_merge_sort. Qed.

Lemma sorted_elem_of l x : x ∈ sorted R l ↔ x ∈ l.
Proof. by rewrite sorted_Permutation. Qed.

Lemma sorted_NoDup l : NoDup l → NoDup (sorted R l).
Proof. by rewrite sorted_Permutation. Qed.

End Sorted.

(** ** Facts about the parser *)

Section Parser.

Import configparser.

Lemma lookup_overlay content store sec opt :
  lookup (overlay content store) sec opt
  = match lookup content sec opt with
    | Some v => Some v
    | None => lookup store sec opt
    end.
Proof.
  unfold lookup, overlay. rewrite lookup_union_with.
  destruct (content !! sec) as [new|], (store !! sec) as [old|]; simpl; try done.
  - rewrite lookup_union. by destruct (new !! opt), (old !! opt).
  - by destruct (new !! opt).
Qed.

(** The value of an option after several files were read: the last file
    that defines it decides, and what was stored before remains otherwise. *)
Lemma lookup_overlay_all contents store sec opt :
  lookup (overlay_all store contents) sec opt
  = match winner contents sec opt with
    | Some v => Some v
    | None => lookup store sec opt
    end.
Proof.
  revert store. induction contents as [|c cs IH]; intros store; [done|].
  simpl. rewrite IH, lookup_overlay. by destruct (winner cs sec opt).
Qed.

Lemma winner_app l1 l2 sec opt :
  winner (l1 ++ l2) sec opt
  = match winner l2 sec opt with
    | Some v => Some v
    | None => winner l1 sec opt
    end.
Proof.
  induction l1 as [|c l1 IH]; simpl.
  - by destruct (winner l2 sec opt).
  - rewrite IH. by destruct (winner l2 sec opt).
Qed.

Lemma contents_of_app open l1 l2 :
  contents_of open (l1 ++ l2) = contents_of open l1 ++ contents_of open l2.
Proof. apply omap_app. Qed.

(** [read] succeeds exactly when no file is malformed; it then stores the
    contents of the files it could open, in order, and reports those files. *)
Lemma read_ok open filenames store :
  forallb (λ f, negb (malformed open f)) filenames = true →
  read open filenames store
  = Ok (overlay_all store (contents_of open filenames),
        filter (λ f, readable open f = true) filenames).
Proof.
  revert store. induction filenames as [|f fs IH]; intros store; [done|].
  simpl. unfold malformed, readable, contents_of.
  intros [Hf Hfs]%andb_prop. cbn [omap list_omap]. rewrite filter_cons.
  destruct (open f) eqn:Hopen; [| done |]; by rewrite IH.
Qed.

Lemma read_malformed open filenames store :
  forallb (λ f, negb (malformed open f)) filenames = false →
  read open filenames store = Raise ParsingError.
Proof.
  revert store. induction filenames as [|f fs IH]; intros store; [done|].
  simpl. unfold malformed at 1.
  destruct (open f) eqn:Hopen; simpl; [by apply IH|done|].
  intros H. by rewrite IH.
Qed.

(** The raw [get] raises nothing but the two errors the getter catches. *)
Lemma get_raw_raises store sec opt e :
  get_raw store sec opt = Raise e → e = NoSectionError ∨ e = NoOptionError.
Proof.
  unfold get_raw, unify_values. destruct (store !! sec); [|case_decide].
  - case_match; [done|]. intros [= <-]. by right.
  - case_match; [done|]. intros [= <-]. by right.
  - intros [= <-]. by left.
Qed.

(** An option stored for a section is what the raw [get] returns for it. *)
Lemma get_stored store sec opt v :
  lookup store sec (optionxform opt) = Some v → get_raw store sec opt = Ok v.
Proof.
  unfold lookup, get_raw, unify_values. destruct (store !! sec) as [d|]; [|done].
  simpl. intros Hv. by rewrite (lookup_union_Some_l _ _ _ _ Hv).
Qed.

(** [get] fails where the raw [get] fails, and with the same error. *)
Lemma get_absent interpolate store sec opt e :
  get_raw store sec opt = Raise e → get interpolate store sec opt = Raise e.
Proof.
  unfold get, get_raw. destruct (unify_values store sec) as [d|]; [|done].
  by destruct (d !! optionxform opt).
Qed.

(** Where the raw [get] finds a value, [get] interpolates it. *)
Lemma get_present interpolate store sec opt raw :
  get_raw store sec opt = Ok raw →
  ∃ vars, unify_values store sec = Ok vars
          ∧ get interpolate store sec opt
            = match interpolate sec (optionxform opt) raw vars with
              | Some text => Ok text
              | None => Raise InterpolationError
              end.
Proof.
  unfold get, get_raw. destruct (unify_values store sec) as [d|]; [|done].
  destruct (d !! optionxform opt); [|done]. intros [= ->]. by exists d.
Qed.

(** [get] returns or fails to interpolate exactly where a value is stored. *)
Lemma get_Ok_raw interpolate store sec opt text :
  get interpolate store sec opt = Ok text → ∃ raw, get_raw store sec opt = Ok raw.
Proof.
  unfold get, get_raw. destruct (unify_values store sec) as [d|]; [|done].
  destruct (d !! optionxform opt); [by eexists|done].
Qed.

Lemma get_raises interpolate store sec opt e :
  get interpolate store sec opt = Raise e →
  (get_raw store sec opt = Raise e ∧ (e = NoSectionError ∨ e = NoOptionError))
  ∨ (e = InterpolationError ∧ ∃ raw, get_raw store sec opt = Ok raw).
Proof.
  destruct (get_raw store sec opt) as [raw|e'] eqn:Hraw.
  - destruct (get_present interpolate _ _ _ _ Hraw) as (vars & _ & ->).
    destruct (interpolate _ _ _ _); [done|]. intros [= <-]. right. eauto.
  - rewrite (get_absent interpolate _ _ _ _ Hraw). intros [= <-]. left.
    split; [done|]. by eapply get_raw_raises.
Qed.

(** On a stored value without a percent sign, an interpolation that keeps
    plain text makes [get] return the value as stored. *)
Lemma get_plain py store sec opt raw :
  keeps_plain_text py → get_raw store sec opt = Ok raw →
  Text.contains "%" raw = false →
  get (interpolate py) store sec opt = Ok raw.
Proof.
  intros Hplain Hraw Hno.
  destruct (get_present (interpolate py) _ _ _ _ Hraw) as (vars & _ & ->).
  by rewrite Hplain.
Qed.

(** *** The interpolation of Python 3 *)

Lemma reference_name_spec s name :
  reference_name s = Some name →
  name ≠ "" ∧ Text.contains ")" name = false
  ∧ ∃ rest, s = name +:+ ")s" +:+ rest.
Proof.
  revert name. induction s as [|c s IH]; intros name; [done|].
  cbn [reference_name]. destruct (Ascii.eqb c ")") eqn:Hc; [done|].
  destruct (String.prefix ")s" s) eqn:Hp.
  - intros [= <-]. apply prefix_iff in Hp as [rest ->].
    split; [done|]. split; [cbn [Text.contains]; by rewrite Hc|by exists rest].
  - destruct (reference_name s) as [name'|]; [|done]. intros [= <-].
    destruct (IH name' eq_refl) as (_ & Hno & rest & ->).
    split; [done|]. split; [cbn [Text.contains]; by rewrite Hc|by exists rest].
Qed.

Lemma interpolate_loop_plain nested vars rest :
  Text.contains "%" rest = false →
  interpolate_loop nested vars 0 rest = Some rest.
Proof.
  induction rest as [|c rest IH]; [done|]. cbn [Text.contains interpolate_loop].
  destruct (Ascii.eqb c "%"); [done|]. cbn [orb negb]. intros Hno.
  by rewrite IH.
Qed.

(** [BasicInterpolation] keeps a text without a percent sign. *)
Lemma before_get_plain section name rawval vars :
  Text.contains "%" rawval = false →
  before_get section name rawval vars = Some rawval.
Proof. apply interpolate_loop_plain. Qed.

End Parser.

Lemma py_keeps_plain_text : keeps_plain_text Demo.py.
Proof. intros section name rawval vars. apply before_get_plain. Qed.

Lemma py3_keeps_plain_text : keeps_plain_text Demo.py3.
Proof. intros section name rawval vars. apply before_get_plain. Qed.

(** ** The lookup chain computes [resolve] *)

(** Unfolds the monad's operations, leaving the reads of the sources. *)
Ltac run_monad :=
  unfold mbind, M_bind, mret, M_ret, emit, get_self, lift, raise, try_except,
    seen_keys_add;
  cbn [self log fst snd].

Section Chain.

Context (py : Interp) (os : World).

Lemma logged_logged st a b : logged (logged st a) b = logged st (a ++ b).
Proof. unfold logged. simpl. by rewrite (assoc_L (++)). Qed.

Lemma bind_run {A B} (m : M A) (k : A → M B) st :
  (m ≫= k) st
  = match m st with
    | (Ok a, st') => k a st'
    | (Raise e, st') => (Raise e, st')
    end.
Proof. reflexivity. Qed.

Lemma as_text_run raw st : as_text py raw st = (decode py raw, st).
Proof.
  unfold as_text, decode. destruct (PY2 py); [|done].
  by destruct (Text.decode_utf8 raw).
Qed.

Lemma _read_env_run key st :
  _read_env py os key st
  = (match environ os !! key with
     | Some raw => decode py raw
     | None => Raise NotFound
     end, logged st [EnvRead key]).
Proof.
  unfold _read_env, environ_getitem. run_monad.
  fold (logged st [EnvRead key]).
  destruct (environ os !! key) as [raw|]; run_monad; [|done].
  apply as_text_run.
Qed.

Lemma _read_parser_run section key st :
  _read_parser py section key st
  = (match configparser.get (interpolate py) (parser (self st)) section key with
     | Ok raw => decode py raw
     | Raise e =>
         Raise (if bool_decide (e ∈ [NoSectionError; NoOptionError])
                then NotFound else e)
     end, logged st [ParserRead section key]).
Proof.
  unfold _read_parser, parser_get. run_monad.
  fold (logged st [ParserRead section key]).
  destruct (configparser.get _ (parser (self st)) section key) as [raw|e]; run_monad.
  - apply as_text_run.
  - by case_bool_decide.
Qed.

Lemma defaults_getitem_run section key st :
  defaults_getitem section key st
  = (match table_lookup (self st) section key with
     | Some v => Ok v
     | None => Raise KeyError
     end, logged st [DefaultsRead section key]).
Proof.
  unfold defaults_getitem, table_lookup. run_monad.
  fold (logged st [DefaultsRead section key]).
  destruct (defaults (self st) !! section) as [table|]; run_monad; [|done].
  simpl. by destruct (table !! key).
Qed.

Lemma decode_raises raw e : decode py raw = Raise e → e = UnicodeDecodeError.
Proof.
  unfold decode. destruct (PY2 py); [|done].
  destruct (Text.decode_utf8 raw); [done|]. by intros [= <-].
Qed.

(** [_read] returns what the chain describes and reads the sources the
    chain lists, in that order. *)
Lemma _read_resolve env_key section key default st :
  _read py os env_key section key default st
  = ((resolve py os (self st) env_key section key default).1,
     logged st (resolve py os (self st) env_key section key default).2).
Proof.
  unfold _read, resolve, try_except.
  rewrite bind_run, _read_env_run.
  destruct (environ os !! env_key) as [raw|]; simpl.
  { destruct (decode py raw) as [text|e] eqn:Hd; [done|].
    by apply decode_raises in Hd as ->. }
  rewrite bind_run, _read_parser_run. simpl.
  destruct (configparser.get _ (parser (self st)) section key) as [raw|e] eqn:Hget;
    simpl.
  { rewrite logged_logged.
    destruct (decode py raw) as [text|e] eqn:Hd; [done|].
    by apply decode_raises in Hd as ->. }
  rewrite defaults_getitem_run, !logged_logged. simpl.
  destruct (get_raises _ _ _ _ _ Hget) as [[_ [->| ->]]|[-> _]]; simpl;
    try done; by destruct (table_lookup (self st) section key).
Qed.

(** [_get] splits the key, runs the chain on the parts and, when the chain
    returns, records the key. *)
Lemma _get_resolve key default doc st :
  _get py os key default doc st
  = match resolve py os (self st) (env_key_of (self st) key)
            (config_section_of (key_parts key).1) (key_parts key).2 default with
    | (Ok v, accesses) =>
        (Ok v, with_seen (seen_record (self st) key doc) (logged st accesses))
    | (Raise e, accesses) => (Raise e, logged st accesses)
    end.
Proof.
  unfold _get, env_key_of, seen_record, env_key_of, key_parts, config_section_of.
  destruct (Text.split_dot key) as [[section entry]|]; simpl;
    rewrite bind_run; cbn [get_self]; rewrite bind_run, _read_resolve;
    destruct (resolve _ _ _ _ _ _ _) as [[v|e] accesses]; done.
Qed.

(** The same, through [resolved] and [consulted]. *)
Lemma _get_resolved key default doc st :
  _get py os key default doc st
  = match resolved py os (self st) key default with
    | Ok v =>
        (Ok v, with_seen (seen_record (self st) key doc)
                 (logged st (consulted py os (self st) key default)))
    | Raise e => (Raise e, logged st (consulted py os (self st) key default))
    end.
Proof.
  rewrite _get_resolve. unfold resolved, consulted.
  by destruct (resolve _ _ _ _ _ _ _) as [[v|e] accesses].
Qed.

Lemma _get_result key default doc st :
  (_get py os key default doc st).1 = resolved py os (self st) key default.
Proof. rewrite _get_resolved. by destruct (resolved _ _ _ _ _). Qed.

(** The chain raises nothing but a decoding error, on a value of the
    environment or one that the parser handed back, and the error of an
    interpolation that failed, which needs a stored value and an unset
    variable. *)
Lemma resolved_raises self key default e :
  resolved py os self key default = Raise e →
  (e = UnicodeDecodeError ∧ PY2 py = true)
  ∨ (e = InterpolationError
     ∧ environ os !! env_key_of self key = None
     ∧ configparser.get (interpolate py) (parser self)
         (config_section_of (key_parts key).1) (key_parts key).2
       = Raise InterpolationError).
Proof.
  assert (∀ raw e', decode py raw = Raise e' →
            e' = UnicodeDecodeError ∧ PY2 py = true) as Hdecode.
  { intros raw e'. unfold decode. destruct (PY2 py); [|done].
    destruct (Text.decode_utf8 raw); [done|]. by intros [= <-]. }
  unfold resolved, resolve. destruct (environ os !! _) as [raw|]; simpl.
  { destruct (decode py raw) eqn:Hd; [done|]. intros [= <-]. left. by eapply Hdecode. }
  destruct (configparser.get _ _ _ _) as [raw|e'] eqn:Hget; simpl.
  { destruct (decode py raw) eqn:Hd; [done|]. intros [= <-]. left. by eapply Hdecode. }
  destruct (get_raises _ _ _ _ _ Hget) as [[_ [->| ->]]|[-> _]];
    simpl; [done..|].
  intros [= <-]. by right.
Qed.

(** A key absent from the parsed store: the parser's [get] raises one of the
    two errors that [_read_parser] catches. *)
Lemma get_not_stored self section key :
  (∀ raw, configparser.get_raw (parser self) section key ≠ Ok raw) →
  ∃ e, configparser.get (interpolate py) (parser self) section key = Raise e
       ∧ bool_decide (e ∈ [NoSectionError; NoOptionError]) = true.
Proof.
  intros Hstore.
  destruct (configparser.get_raw (parser self) section key) as [raw|e] eqn:Hraw.
  { by destruct (Hstore raw). }
  exists e. split; [by apply get_absent|].
  by destruct (get_raw_raises _ _ _ _ Hraw) as [->| ->].
Qed.


End Chain.

(** ** The accessors: a check of the default, a lookup, a coercion *)

Section Accessors.

Context (py : Interp) (os : World).

Lemma getstr_run key default doc st :
  getstr py os key default doc st
  = if is_none default || is_text default
    then _get py os key default doc st
    else (Raise AssertionError, st).
Proof. unfold getstr, assert. by destruct (is_none default || is_text default). Qed.

Lemma get_run key default doc st :
  get py os key default doc st
  = if is_none default || is_text default
    then _get py os key default doc (logged st [Warned])
    else (Raise AssertionError, st).
Proof. unfold get, assert. by destruct (is_none default || is_text default). Qed.

Lemma getlist_run key default doc sep st :
  getlist py os key default doc sep st
  = if is_text default || is_none default || is_list_or_tuple default
    then then_coerce (coerce_list sep)
           (_get py os key default doc
              (if is_text default then logged st [Warned] else st))
    else (Raise AssertionError, st).
Proof.
  assert (∀ st0, (_get py os key default doc
                    ≫= λ value,
                         match value with
                         | VText text =>
                             pieces ← lift (py_split text sep);
                             mret (VList (VText <$> filter
                                     (λ entry, Text.is_empty entry = false)
                                     (Text.strip <$> pieces)))
                         | VNone => mret VNone
                         | _ => items ← lift (py_list value); mret (VList items)
                         end) st0
                 = then_coerce (coerce_list sep) (_get py os key default doc st0))
    as Hrest.
  { intros st0. rewrite bind_run. unfold then_coerce, coerce_list.
    destruct (_get _ _ _ _ _ _) as [[v|e] st']; [|done].
    destruct v; try done.
    rewrite bind_run. unfold lift. by destruct (py_split s sep). }
  unfold getlist, assert.
  destruct (is_text default); cbn [orb].
  - rewrite !bind_run. cbn [mret M_ret emit]. rewrite <-Hrest. done.
  - destruct (is_none default || is_list_or_tuple default); [|done].
    rewrite !bind_run. cbn [mret M_ret]. rewrite <-Hrest. by destruct st.
Qed.

Lemma getbool_run key default doc st :
  getbool py os key default doc st
  = if is_none default || is_bool default
    then then_coerce (coerce_bool py) (_get py os key default doc st)
    else (Raise AssertionError, st).
Proof.
  unfold getbool, assert, then_coerce, coerce_bool.
  destruct (is_none default || is_bool default); [|done].
  rewrite bind_run. cbn [mret M_ret]. rewrite bind_run.
  destruct (_get _ _ _ _ _ _) as [[v|e] st']; [|done].
  by destruct (is_none v).
Qed.

Lemma getint_run key default doc st :
  getint py os key default doc st
  = if is_none default || is_int default
    then then_coerce (coerce_int py) (_get py os key default doc st)
    else (Raise AssertionError, st).
Proof.
  unfold getint, assert, then_coerce, coerce_int.
  destruct (is_none default || is_int default); [|done].
  rewrite bind_run. cbn [mret M_ret]. rewrite bind_run.
  destruct (_get _ _ _ _ _ _) as [[v|e] st']; [|done].
  destruct (is_none v); [done|]. rewrite bind_run. unfold lift.
  by destruct (py_int py v).
Qed.

Lemma getfloat_run key default doc st :
  getfloat py os key default doc st
  = if is_none default || is_float default
    then then_coerce (coerce_float py) (_get py os key default doc st)
    else (Raise AssertionError, st).
Proof.
  unfold getfloat, assert, then_coerce, coerce_float.
  destruct (is_none default || is_float default); [|done].
  rewrite bind_run. cbn [mret M_ret]. rewrite bind_run.
  destruct (_get _ _ _ _ _ _) as [[v|e] st']; [|done].
  destruct (is_none v); [done|]. rewrite bind_run. unfold lift.
  by destruct (py_float py v).
Qed.

Lemma then_coerce_get coerce key default doc st :
  (then_coerce coerce (_get py os key default doc st)).1
  = coerced coerce (resolved py os (self st) key default).
Proof. rewrite _get_resolved. by destruct (resolved _ _ _ _ _). Qed.



Lemma getbool_result key default doc st :
  is_none default || is_bool default = true →
  (getbool py os key default doc st).1
  = coerced (coerce_bool py) (resolved py os (self st) key default).
Proof. intros Hd. by rewrite getbool_run, Hd, then_coerce_get. Qed.



End Accessors.

(** ** The constructor *)

Section Constructor.

Context (os : World).

Lemma collect_search_files_spec candidates :
  collect_search_files os candidates = normalise os <$> omap id candidates.
Proof.
  unfold collect_search_files.
  enough (∀ acc,
    foldl (λ search_files path,
             match path with
             | None => search_files
             | Some path => search_files ++ [normalise os path]
             end) acc candidates
    = acc ++ (normalise os <$> omap id candidates)) as H by apply (H []).
  induction candidates as [|[path|] rest IH]; intros acc; simpl.
  - by rewrite app_nil_r.
  - by rewrite IH, <-(assoc_L (++)).
  - apply IH.
Qed.

(** The files handed to the parser: the sorted matches of each pattern, one
    pattern after the other. *)
Lemma collect_config_files_spec search :
  collect_config_files os search
  = concat ((λ path, sorted String.le (glob os path)) <$> search).
Proof.
  unfold collect_config_files.
  enough (∀ acc,
    foldl (λ final_config_files path,
             match glob os path with
             | [] => final_config_files
             | _ => final_config_files ++ sorted String.le (glob os path)
             end) acc search
    = acc ++ concat ((λ path, sorted String.le (glob os path)) <$> search))
    as H by apply (H []).
  induction search as [|path rest IH]; intros acc; simpl.
  - by rewrite app_nil_r.
  - rewrite IH. destruct (glob os path) eqn:Hglob.
    + by rewrite sorted_nil.
    + by rewrite <-(assoc_L (++)).
Qed.

Lemma collect_config_files_app l1 l2 :
  collect_config_files os (l1 ++ l2)
  = collect_config_files os l1 ++ collect_config_files os l2.
Proof. by rewrite !collect_config_files_spec, fmap_app, concat_app. Qed.

Lemma config_variable_env_key self :
  _env_key self "config" "" = config_variable (namespace self).
Proof. reflexivity. Qed.

(** The constructor succeeds exactly when none of the files it found is
    malformed, and this is the object it builds. *)
Lemma init_run ns config_files defaults :
  __init__ os ns config_files defaults
  = if forallb (λ f, negb (configparser.malformed (open_ini os) f))
         (final_config_files os ns config_files)
    then Ok {| parser := configparser.overlay_all ∅
                 (configparser.contents_of (open_ini os)
                    (final_config_files os ns config_files));
               seen_keys := ∅;
               namespace := ns;
               defaults := default ∅ defaults;
               search_files :=
                 collect_search_files os
                   (config_files ++ [environ os !! config_variable ns]);
               found_files :=
                 filter (λ f, configparser.readable (open_ini os) f = true)
                   (final_config_files os ns config_files) |}
    else Raise ParsingError.
Proof.
  unfold __init__, final_config_files. cbn [parser].
  rewrite config_variable_env_key. cbn [namespace].
  destruct (forallb _ _) eqn:Hok.
  - by rewrite (read_ok _ _ _ Hok).
  - by rewrite (read_malformed _ _ _ Hok).
Qed.

End Constructor.

(** ** The seen keys along the calls *)

Section SeenKeys.

Context (py : Interp) (os : World).

Lemma then_coerce_state coerce r : (then_coerce coerce r).2 = r.2.
Proof. by destruct r as [[v|e] st']. Qed.

(** A lookup leaves the object as it was, but for the record it adds when it
    returns. *)
Lemma _get_self key default doc st :
  self (_get py os key default doc st).2
  = match resolved py os (self st) key default with
    | Ok _ => self (with_seen (seen_record (self st) key doc) st)
    | Raise _ => self st
    end.
Proof. rewrite _get_resolved. by destruct (resolved _ _ _ _ _). Qed.

Lemma _get_seen_mono key default doc st :
  seen_keys (self st) ⊆ seen_keys (self (_get py os key default doc st).2).
Proof.
  rewrite _get_self. destruct (resolved _ _ _ _ _); [|done].
  cbn [with_seen self seen_keys]. set_solver.
Qed.

Lemma exec_seen_mono c st :
  seen_keys (self st) ⊆ seen_keys (self (exec py os c st)).
Proof.
  assert (∀ default, seen_keys (self st)
            ⊆ seen_keys (self (if is_text default then logged st [Warned] else st)))
    as Hwarn by (intros default; by destruct (is_text default)).
  destruct c as [key default doc|key default doc|key default doc sep
                |key default doc|key default doc|key default doc|section key|];
    cbn [exec].
  - rewrite get_run. destruct (_ || _); [|done].
    etrans; [|apply _get_seen_mono]. done.
  - rewrite getstr_run. destruct (_ || _); [|done]. apply _get_seen_mono.
  - rewrite getlist_run. destruct (_ || _ || _); [|done].
    rewrite then_coerce_state. etrans; [apply Hwarn|apply _get_seen_mono].
  - rewrite getbool_run. destruct (_ || _); [|done].
    rewrite then_coerce_state. apply _get_seen_mono.
  - rewrite getint_run. destruct (_ || _); [|done].
    rewrite then_coerce_state. apply _get_seen_mono.
  - rewrite getfloat_run. destruct (_ || _); [|done].
    rewrite then_coerce_state. apply _get_seen_mono.
  - unfold section_getitem. rewrite get_run. cbn [is_none is_text orb].
    etrans; [|apply _get_seen_mono]. done.
  - done.
Qed.

(** Whatever the calls, no record is ever removed. *)
Lemma exec_all_seen_mono calls st :
  seen_keys (self st) ⊆ seen_keys (self (exec_all py os calls st)).
Proof.
  revert st. induction calls as [|c calls IH]; intros st; [done|].
  cbn [exec_all foldl]. etrans; [apply (exec_seen_mono c)|apply IH].
Qed.

Lemma list_keys_run st :
  list_keys st = (Ok (sorted ConfigKey_le (elements (seen_keys (self st)))), st).
Proof. reflexivity. Qed.

End SeenKeys.

(** ** The properties of the specification *)

(** *** C1: which section name keys the default table *)

(** C1, as stated, fails: with nothing in the environment and nothing in the
    parsed store for the dotless key [debug], and a default table holding
    [debug] both under the empty section name and under [DEFAULT], the lookup
    reads the table under [DEFAULT] and returns that value; the empty section
    name is never read. *)
Lemma C1_counterexample :
  let os := Demo.os ∅ in
  let st := Demo.start (Demo.getter ∅ Demo.table) in
  environ os !! "APP_DEBUG" = None
  ∧ configparser.get (interpolate Demo.py) (parser (self st)) "DEFAULT" "debug"
    = Raise NoOptionError
  ∧ table_lookup (self st) "" "debug" = Some (VText "bare")
  ∧ (getstr Demo.py os "debug" VNone "" st).1 = Ok (VText "fallback")
  ∧ log (getstr Demo.py os "debug" VNone "" st).2
    = [EnvRead "APP_DEBUG"; ParserRead "DEFAULT" "debug";
       DefaultsRead "DEFAULT" "debug"].
Proof. vm_compute. by split_and!. Qed.

(** C1, amended: for every lookup key whose value is absent from the
    environment and from the parsed store, the default table is read under
    the same section name as the parsed store, that is the section token of
    the key, or [DEFAULT] when the token is empty: a dotless key [K] looks up
    [defaults['DEFAULT'][K]].  The value found there is returned, and the
    caller's default when there is none. *)
Theorem C1_default_table_section py os key default doc st :
  environ os !! env_key_of (self st) key = None →
  (∀ raw, configparser.get_raw (parser (self st))
            (config_section_of (key_parts key).1) (key_parts key).2 ≠ Ok raw) →
  let section := config_section_of (key_parts key).1 in
  let entry := (key_parts key).2 in
  ∃ st',
    _get py os key default doc st
    = (Ok (from_option id default (table_lookup (self st) section entry)), st')
    ∧ log st' = log st ++ [EnvRead (env_key_of (self st) key);
                           ParserRead section entry;
                           DefaultsRead section entry]
    ∧ (Text.split_dot key = None → section = "DEFAULT" ∧ entry = key).
Proof.
  intros Henv Hstore section entry. rewrite _get_resolve. unfold resolve.
  rewrite Henv. fold section entry.
  destruct (get_not_stored py _ _ _ Hstore) as (e & Hget & He).
  fold section entry in Hget. rewrite Hget, He.
  eexists; split_and!; [done..|].
  unfold section, entry, key_parts; by intros ->.
Qed.

Lemma C1_default_table_section_witness :
  ∃ st',
    _get Demo.py (Demo.os ∅) "debug" VNone "" (Demo.start (Demo.getter ∅ Demo.table))
    = (Ok (VText "fallback"), st')
    ∧ log st' = [EnvRead "APP_DEBUG"; ParserRead "DEFAULT" "debug";
                 DefaultsRead "DEFAULT" "debug"]
    ∧ (Text.split_dot "debug" = None → "DEFAULT" = "DEFAULT" ∧ "debug" = "debug").
Proof.
  apply (C1_default_table_section Demo.py (Demo.os ∅) "debug" VNone ""
           (Demo.start (Demo.getter ∅ Demo.table))).
  - vm_compute. reflexivity.
  - intros raw. vm_compute. discriminate.
Defined.

(** *** C2: the environment wins *)



(** *** C3: the file named by the environment *)

(** C3, as stated, fails: a variable [APP_CONFIG] that is set but empty does
    add a candidate.  The empty path is made absolute like any other, which
    gives the current directory, here [/srv], and a directory becomes the
    pattern of its entries. *)
Lemma C3_counterexample :
  (∃ g, __init__ (Demo.os ∅) "app" [Some "/etc/app"] None = Ok g
        ∧ search_files g = ["/etc/app/*"])
  ∧ (∃ g, __init__ (Demo.os {[ "APP_CONFIG" := "" ]}) "app" [Some "/etc/app"] None = Ok g
          ∧ search_files g = ["/etc/app/*"; "/srv/*"]).
Proof. split; eexists; split; vm_compute; reflexivity. Qed.

(** C3, amended: at construction the environment variable
    [{NAMESPACE}_CONFIG] is consulted; if and only if it is set (the empty
    string included, which stands for the current directory), its value is
    appended as the last candidate path, normalised like the others, so the
    entries of the files it names take precedence over every explicitly listed
    candidate file: the value they give to an option is the one stored, and
    the one the parser's [get] hands back when it has no percent sign (the
    parser interpolates a value that has one). *)
Theorem C3_config_variable os ns config_files defaults g :
  __init__ os ns config_files defaults = Ok g →
  search_files g
  = (normalise os <$> omap id config_files)
    ++ match environ os !! config_variable ns with
       | Some path => [normalise os path]
       | None => []
       end
  ∧ ∀ path section name v,
      environ os !! config_variable ns = Some path →
      configparser.winner
        (configparser.contents_of (open_ini os)
           (sorted String.le (glob os (normalise os path)))) section name = Some v →
      configparser.lookup (parser g) section name = Some v
      ∧ ∀ key, configparser.optionxform key = name →
          configparser.get_raw (parser g) section key = Ok v
          ∧ ∀ py, keeps_plain_text py → Text.contains "%" v = false →
                  configparser.get (interpolate py) (parser g) section key = Ok v.
Proof.
  rewrite init_run. destruct (forallb _ _); [|done]. intros [= <-]. cbn [search_files parser].
  split.
  - rewrite collect_search_files_spec, omap_app, fmap_app. f_equal.
    by destruct (environ os !! config_variable ns).
  - intros path section name v Henv Hwin.
    assert (configparser.lookup
              (configparser.overlay_all ∅
                 (configparser.contents_of (open_ini os)
                    (final_config_files os ns config_files))) section name
            = Some v) as Hlookup.
    { rewrite lookup_overlay_all. unfold final_config_files.
      rewrite Henv, collect_search_files_spec, omap_app, fmap_app.
      rewrite collect_config_files_app, contents_of_app, winner_app.
      cbn [omap list_omap fmap list_fmap id]. rewrite collect_config_files_spec.
      cbn [fmap list_fmap concat]. rewrite app_nil_r. by rewrite Hwin. }
    split; [done|]. intros key <-.
    assert (configparser.get_raw
              (configparser.overlay_all ∅
                 (configparser.contents_of (open_ini os)
                    (final_config_files os ns config_files))) section key = Ok v)
      as Hraw by (by apply get_stored).
    split; [done|]. intros py Hplain Hno. by apply get_plain.
Qed.

Lemma C3_config_variable_witness :
  ∃ g, __init__ (Demo.os {[ "APP_CONFIG" := "/tmp/extra.ini" ]}) "app"
         [Some "/etc/app"] None = Ok g
       ∧ search_files g = ["/etc/app/*"; "/tmp/extra.ini"]
       ∧ configparser.get (interpolate Demo.py) (parser g) "psql" "Server"
         = Ok "override".
Proof.
  assert (∃ g, __init__ (Demo.os {[ "APP_CONFIG" := "/tmp/extra.ini" ]}) "app"
                 [Some "/etc/app"] None = Ok g) as [g Hg].
  { eexists. vm_compute. reflexivity. }
  exists g. split; [exact Hg|].
  destruct (C3_config_variable _ _ _ _ g Hg) as [Hsearch Hwins].
  split.
  - rewrite Hsearch. vm_compute. reflexivity.
  - destruct (Hwins "/tmp/extra.ini" "psql" "server" "override") as [_ Hget];
      [vm_compute; reflexivity..|].
    destruct (Hget "Server") as [_ Hplain]; [vm_compute; reflexivity|].
    apply Hplain; [apply py_keeps_plain_text|vm_compute; reflexivity].
Defined.

(** *** C4: the order of the files and the precedence it gives *)

Lemma winner_None contents section name :
  (∀ c, c ∈ contents → configparser.lookup c section name = None) →
  configparser.winner contents section name = None.
Proof.
  induction contents as [|c cs IH]; intros Hall; [done|]. simpl.
  rewrite IH by (intros; apply Hall; by right). apply Hall. by left.
Qed.

Lemma elem_of_contents_of open filenames c :
  c ∈ configparser.contents_of open filenames →
  ∃ f, f ∈ filenames ∧ open f = configparser.Ini c.
Proof.
  unfold configparser.contents_of. rewrite list_elem_of_omap.
  intros (f & Hf & Hc). exists f. split; [done|].
  destruct (open f); naive_solver.
Qed.

(** C4: the list of files handed to the parser is the concatenation, in
    candidate order, of the matches of each candidate sorted in ascending
    lexicographic order; a candidate without a match contributes nothing and
    is no error; the files that could be opened are parsed in that order, and
    of the files that define an option of a section the last one in that
    order supplies the value. *)
Theorem C4_file_order os ns config_files defaults :
  let search :=
    collect_search_files os (config_files ++ [environ os !! config_variable ns]) in
  let final := final_config_files os ns config_files in
  final = concat ((λ path, sorted String.le (glob os path)) <$> search)
  ∧ (∀ path, Sorted String.le (sorted String.le (glob os path))
             ∧ sorted String.le (glob os path) ≡ₚ glob os path)
  ∧ (∀ l1 path l2, glob os path = [] →
       collect_config_files os (l1 ++ path :: l2) = collect_config_files os (l1 ++ l2))
  ∧ ((∀ path, path ∈ search → glob os path = []) →
       final = []
       ∧ ∃ g, __init__ os ns config_files defaults = Ok g ∧ found_files g = [])
  ∧ (forallb (λ f, negb (configparser.malformed (open_ini os) f)) final = true →
       ∃ g, __init__ os ns config_files defaults = Ok g
            ∧ search_files g = search
            ∧ found_files g
              = filter (λ f, configparser.readable (open_ini os) f = true) final
            ∧ ∀ section name,
                configparser.lookup (parser g) section name
                = configparser.winner
                    (configparser.contents_of (open_ini os) final) section name)
  ∧ (∀ g pre f post content section name v,
       __init__ os ns config_files defaults = Ok g →
       final = pre ++ f :: post →
       open_ini os f = configparser.Ini content →
       configparser.lookup content section name = Some v →
       (∀ f' content', f' ∈ post → open_ini os f' = configparser.Ini content' →
                       configparser.lookup content' section name = None) →
       configparser.lookup (parser g) section name = Some v).
Proof.
  intros search final.
  assert (final = concat ((λ path, sorted String.le (glob os path)) <$> search))
    as Hfinal by apply collect_config_files_spec.
  assert (∀ g, __init__ os ns config_files defaults = Ok g →
            ∀ section name,
              configparser.lookup (parser g) section name
              = configparser.winner
                  (configparser.contents_of (open_ini os) final) section name)
    as Hstore.
  { intros g. rewrite init_run. fold final. destruct (forallb _ final); [|done].
    intros [= <-] section name. cbn [parser]. rewrite lookup_overlay_all.
    by destruct (configparser.winner _ _ _). }
  split_and!.
  - done.
  - intros path. split; [apply sorted_Sorted, _|apply sorted_Permutation].
  - intros l1 path l2 Hglob.
    rewrite !collect_config_files_app. f_equal.
    change (path :: l2) with ([path] ++ l2). rewrite collect_config_files_app.
    rewrite (collect_config_files_spec os [path]). simpl.
    by rewrite Hglob, sorted_nil.
  - intros Hnone.
    assert (final = []) as Hnil.
    { rewrite Hfinal. clear Hfinal Hstore. induction search as [|path rest IH]; [done|].
      simpl. rewrite (Hnone path) by (by left). rewrite sorted_nil. simpl.
      apply IH. intros. apply Hnone. by right. }
    split; [done|]. rewrite init_run. fold final. rewrite Hnil. simpl.
    by eexists.
  - intros Hok. rewrite init_run. fold final. rewrite Hok.
    eexists. split; [done|]. cbn [search_files found_files parser].
    split_and!; [done..|]. intros section name. rewrite lookup_overlay_all.
    by destruct (configparser.winner _ _ _).
  - intros g pre f post content section name v Hg Hsplit Hopen Hv Hpost.
    rewrite (Hstore g Hg), Hsplit, contents_of_app, winner_app.
    unfold configparser.contents_of at 1. cbn [omap list_omap]. rewrite Hopen.
    cbn [configparser.winner].
    rewrite winner_None; [by rewrite Hv|].
    intros c (f' & Hf' & Hc)%elem_of_contents_of. by eapply Hpost.
Qed.

Lemma C4_file_order_witness :
  let os := Demo.os {[ "APP_CONFIG" := "/tmp/extra.ini" ]} in
  final_config_files os "app" [Some "/etc/app"; Some "nothing"]
  = ["/etc/app/10_base.ini"; "/etc/app/50_local.ini"; "/tmp/extra.ini"]
  ∧ ∃ g, __init__ os "app" [Some "/etc/app"; Some "nothing"] None = Ok g
         ∧ configparser.lookup (parser g) "psql" "port" = Some "54x2".
Proof.
  intros os.
  pose proof (C4_file_order os "app" [Some "/etc/app"; Some "nothing"] None) as H.
  cbv zeta in H. destruct H as (Hfinal & _ & _ & _ & Hok & Hlast).
  split; [rewrite Hfinal; vm_compute; reflexivity|].
  destruct Hok as (g & Hg & _); [vm_compute; reflexivity|].
  exists g. split; [exact Hg|].
  apply (Hlast g ["/etc/app/10_base.ini"] "/etc/app/50_local.ini" ["/tmp/extra.ini"]
           Demo.local_ini "psql" "port" "54x2" Hg); try (vm_compute; reflexivity).
  intros f' content' Hin. apply list_elem_of_singleton in Hin as ->.
  vm_compute. intros [= <-]. reflexivity.
Defined.

(** *** C5: a key absent everywhere *)




(** *** C6: getlist *)




(** *** C7: getbool *)

(** C7: for every resolved value other than none, [getbool] returns true
    exactly when the lower-cased text form of the value is one of [on],
    [true], [yes], [1], and false for every other text; a resolved none
    yields none.  (The default passes the accessor's check.) *)
Theorem C7_getbool py os key default doc st v :
  is_none default || is_bool default = true →
  (_get py os key default doc st).1 = Ok v →
  (v = VNone → (getbool py os key default doc st).1 = Ok VNone)
  ∧ (v ≠ VNone →
       ∃ b, (getbool py os key default doc st).1 = Ok (VBool b)
            ∧ (b = true ↔ Text.lower (text_type py v) ∈ ["on"; "true"; "yes"; "1"]))
  ∧ (∀ text, v = VText text →
       ((getbool py os key default doc st).1 = Ok (VBool true)
        ↔ Text.lower text ∈ ["on"; "true"; "yes"; "1"])
       ∧ ((getbool py os key default doc st).1 = Ok (VBool false)
          ↔ Text.lower text ∉ ["on"; "true"; "yes"; "1"]))
  ∧ (∀ text, text ∈ ["on"; "TRUE"; "Yes"; "1"] → v = VText text →
       (getbool py os key default doc st).1 = Ok (VBool true)).
Proof.
  intros Hd Hres. rewrite _get_result in Hres.
  assert (∀ text, v = VText text →
            (getbool py os key default doc st).1
            = Ok (VBool (bool_decide (Text.lower text ∈ truthy_words)))) as Htext.
  { intros text ->. by rewrite getbool_result, Hres. }
  split_and!.
  - intros ->. by rewrite getbool_result, Hres.
  - intros Hv. rewrite getbool_result, Hres by done. simpl. unfold coerce_bool.
    destruct (is_none v) eqn:Hn; [by destruct v|].
    eexists. split; [done|]. by rewrite bool_decide_eq_true.
  - intros text Hv. rewrite (Htext text Hv). unfold truthy_words. split.
    + split; [intros [= H]; by apply bool_decide_eq_true in H|].
      intros H. by rewrite bool_decide_true.
    + split; [intros [= H]; by apply bool_decide_eq_false in H|].
      intros H. by rewrite bool_decide_false.
  - intros text Hin Hv. rewrite (Htext text Hv). do 2 f_equal.
    apply bool_decide_eq_true.
    repeat (apply elem_of_cons in Hin as [->|Hin]; [vm_compute; set_solver|]).
    by apply elem_of_nil in Hin.
Qed.

Lemma C7_getbool_witness :
  let os := Demo.os {[ "APP_DEBUG" := "TRUE"; "APP_TRACE" := "enabled" ]} in
  let st := Demo.start (Demo.getter Demo.base_ini Demo.table) in
  (getbool Demo.py os "debug" (VBool false) "" st).1 = Ok (VBool true)
  ∧ (getbool Demo.py os "trace" (VBool true) "" st).1 = Ok (VBool false).
Proof.
  intros os st. split.
  - destruct (C7_getbool Demo.py os "debug" (VBool false) "" st (VText "TRUE"))
      as (_ & _ & _ & Htrue); [reflexivity|vm_compute; reflexivity|].
    apply (Htrue "TRUE"); [|reflexivity].
    apply elem_of_cons. right. apply elem_of_cons. by left.
  - destruct (C7_getbool Demo.py os "trace" (VBool true) "" st (VText "enabled"))
      as (_ & _ & Htext & _); [reflexivity|vm_compute; reflexivity|].
    apply (Htext "enabled" eq_refl). vm_compute.
    intros H. repeat (apply elem_of_cons in H as [H|H]; [discriminate H|]).
    by apply elem_of_nil in H.
Defined.

(** *** C8: the seen keys *)

Lemma ConfigKey_le_section k1 k2 :
  String.le (section k1) (section k2) → section k1 ≠ section k2 →
  ConfigKey_le k1 k2.
Proof.
  intros Hle Hne. unfold ConfigKey_le, ConfigKey_to_tuple, lex_le. simpl.
  left. split; [left; split; [left; split; [done|done]|]|]; congruence.
Qed.

(** C8: the seen keys form a set that only grows.  Every lookup that returns
    adds the record (section or [DEFAULT], entry, variable name, doc),
    whichever source answered (a lookup fails to return only when a value
    cannot be decoded or when the parser cannot interpolate the stored value,
    and then adds nothing; under Python 3 only the latter happens, for a key
    whose variable is not set); a record already present is
    not added twice; no call ever removes a record; [list_keys] leaves the set
    as it is and returns its records, each once, in ascending order of
    (section, entry, variable name, doc).  Resolving [a.b], [a.b] again and
    then [c] from an empty set leaves exactly two records. *)
Theorem C8_seen_keys py os :
  (∀ key default doc st v st',
     _get py os key default doc st = (Ok v, st') →
     seen_keys (self st') = {[ seen_record (self st) key doc ]} ∪ seen_keys (self st))
  ∧ (∀ key default doc st,
       (∃ v, (_get py os key default doc st).1 = Ok v)
       ∨ (((_get py os key default doc st).1 = Raise UnicodeDecodeError
           ∨ (_get py os key default doc st).1 = Raise InterpolationError)
          ∧ seen_keys (self (_get py os key default doc st).2) = seen_keys (self st)))
  ∧ (PY2 py = false →
       ∀ key default doc st,
         (∃ v, (_get py os key default doc st).1 = Ok v)
         ∨ ((_get py os key default doc st).1 = Raise InterpolationError
            ∧ environ os !! env_key_of (self st) key = None
            ∧ configparser.get (interpolate py) (parser (self st))
                (config_section_of (key_parts key).1) (key_parts key).2
              = Raise InterpolationError))
  ∧ (∀ key default doc st v st',
       _get py os key default doc st = (Ok v, st') →
       seen_record (self st) key doc ∈ seen_keys (self st) →
       seen_keys (self st') = seen_keys (self st))
  ∧ (∀ calls st,
       seen_keys (self st) ⊆ seen_keys (self (exec_all py os calls st)))
  ∧ (∀ st, ∃ keys,
       list_keys st = (Ok keys, st)
       ∧ Sorted ConfigKey_le keys ∧ NoDup keys
       ∧ ∀ k, k ∈ keys ↔ k ∈ seen_keys (self st))
  ∧ (∀ d1 d2 d3 doc doc' st v1 st1 v2 st2 v3 st3,
       seen_keys (self st) = ∅ →
       _get py os "a.b" d1 doc st = (Ok v1, st1) →
       _get py os "a.b" d2 doc st1 = (Ok v2, st2) →
       _get py os "c" d3 doc' st2 = (Ok v3, st3) →
       list_keys st3
       = (Ok [ {| section := "DEFAULT"; entry := "c";
                  envvar := _env_key (self st) "c" ""; doc := doc' |};
               {| section := "a"; entry := "b";
                  envvar := _env_key (self st) "b" "a"; doc := doc |} ], st3)).
Proof.
  assert (∀ key default doc st v st',
            _get py os key default doc st = (Ok v, st') →
            self st' = self (with_seen (seen_record (self st) key doc) st))
    as Hstep.
  { intros key default doc st v st' Hget.
    pose proof (_get_self py os key default doc st) as Hself.
    rewrite Hget in Hself. cbn [snd] in Hself.
    rewrite _get_resolved in Hget.
    destruct (resolved _ _ _ _ _); [done|]. by injection Hget. }
  split_and!.
  - intros key default doc st v st' Hget. by rewrite (Hstep _ _ _ _ _ _ Hget).
  - intros key default doc st. rewrite _get_self, _get_resolved.
    destruct (resolved py os (self st) key default) as [v|e] eqn:Hres.
    + left. by eexists.
    + right. split; [|done].
      destruct (resolved_raises _ _ _ _ _ _ Hres) as [[-> _]|[-> _]]; [by left|by right].
  - intros Hpy key default doc st. rewrite _get_resolved.
    destruct (resolved py os (self st) key default) as [v|e] eqn:Hres.
    + left. by eexists.
    + right.
      destruct (resolved_raises _ _ _ _ _ _ Hres) as [[_ Hpy2]|[-> [Henv Hget]]];
        [congruence|done].
  - intros key default doc st v st' Hget Hin. rewrite (Hstep _ _ _ _ _ _ Hget).
    cbn [with_seen self seen_keys]. apply (anti_symm (⊆)); [|apply union_subseteq_r].
    apply union_least; [by apply singleton_subseteq_l|done].
  - apply exec_all_seen_mono.
  - intros st. eexists. split; [apply list_keys_run|]. split_and!.
    + apply sorted_Sorted, _.
    + apply sorted_NoDup, NoDup_elements.
    + intros k. by rewrite sorted_elem_of, elem_of_elements.
  - intros d1 d2 d3 doc doc' st v1 st1 v2 st2 v3 st3 Hempty H1 H2 H3.
    apply Hstep in H1, H2, H3. rewrite list_keys_run. f_equal. f_equal.
    rewrite H3. cbn [with_seen self seen_keys]. rewrite H2.
    cbn [with_seen self seen_keys]. rewrite H1.
    cbn [with_seen self seen_keys]. rewrite Hempty.
    unfold seen_record, env_key_of. cbn [namespace parser _env_key].
    change (key_parts "a.b") with ("a", "b"). change (key_parts "c") with ("", "c").
    cbn [fst snd config_section_of Text.is_empty].
    set (kc := {| section := "DEFAULT"; entry := "c";
                  envvar := _env_key (self st) "c" ""; doc := doc' |}).
    set (kab := {| section := "a"; entry := "b";
                   envvar := _env_key (self st) "b" "a"; doc := doc |}).
    apply (Sorted_unique ConfigKey_le).
    + apply sorted_Sorted, _.
    + apply Sorted_cons; [apply Sorted_cons; constructor|].
      apply HdRel_cons. by apply ConfigKey_le_section.
    + rewrite sorted_Permutation. apply NoDup_Permutation.
      * apply NoDup_elements.
      * apply NoDup_cons. split; [|apply NoDup_singleton].
        by intros [=]%list_elem_of_singleton.
      * intros k.
        rewrite elem_of_elements, !elem_of_union, !elem_of_singleton,
          !elem_of_cons, elem_of_nil, elem_of_empty.
        tauto.
Qed.

Lemma C8_seen_keys_witness :
  let os := Demo.os ∅ in
  let st := Demo.start (Demo.getter Demo.base_ini Demo.table) in
  let st3 :=
    exec_all Demo.py os
      [Getstr "a.b" (VText "") ""; Getstr "a.b" (VText "") ""; Getstr "c" (VText "") ""]
      st in
  (list_keys st3).1
  = Ok [ {| section := "DEFAULT"; entry := "c"; envvar := "APP_C"; doc := "" |};
         {| section := "a"; entry := "b"; envvar := "APP_A_B"; doc := "" |} ].
Proof.
  intros os st st3.
  destruct (C8_seen_keys Demo.py os) as (_ & _ & _ & _ & _ & _ & Hexample).
  pose (st1 := (_get Demo.py os "a.b" (VText "") "" st).2).
  pose (st2 := (_get Demo.py os "a.b" (VText "") "" st1).2).
  assert (_get Demo.py os "a.b" (VText "") "" st = (Ok (VText ""), st1)) as H1
    by (vm_compute; reflexivity).
  assert (_get Demo.py os "a.b" (VText "") "" st1 = (Ok (VText ""), st2)) as H2
    by (vm_compute; reflexivity).
  assert (_get Demo.py os "c" (VText "") "" st2 = (Ok (VText ""), st3)) as H3
    by (vm_compute; reflexivity).
  exact (f_equal fst (Hexample _ _ _ "" "" st _ st1 _ st2 _ st3 eq_refl H1 H2 H3)).
Defined.

(** *** C9: a default of the wrong type *)

(** C9: for every typed accessor, a default that fails the accessor's type
    check raises at once: the call ends with [AssertionError] in the very
    state it started in, so nothing was read from the environment, the store
    or the default table, and no record was added to the seen keys. *)
Theorem C9_invalid_default py os key default doc st :
  (is_none default || is_text default = false →
     getstr py os key default doc st = (Raise AssertionError, st))
  ∧ (is_text default || is_none default || is_list_or_tuple default = false →
       ∀ sep, getlist py os key default doc sep st = (Raise AssertionError, st))
  ∧ (is_none default || is_bool default = false →
       getbool py os key default doc st = (Raise AssertionError, st))
  ∧ (is_none default || is_int default = false →
       getint py os key default doc st = (Raise AssertionError, st))
  ∧ (is_none default || is_float default = false →
       getfloat py os key default doc st = (Raise AssertionError, st)).
Proof.
  split_and!.
  - intros Hd. by rewrite getstr_run, Hd.
  - intros Hd sep. by rewrite getlist_run, Hd.
  - intros Hd. by rewrite getbool_run, Hd.
  - intros Hd. by rewrite getint_run, Hd.
  - intros Hd. by rewrite getfloat_run, Hd.
Qed.

Lemma C9_invalid_default_witness :
  let os := Demo.os {[ "APP_PSQL_PORT" := "5432" ]} in
  let st := Demo.start (Demo.getter Demo.base_ini Demo.table) in
  getint Demo.py os "psql.port" (VText "5432") "" st = (Raise AssertionError, st)
  ∧ getstr Demo.py os "psql.port" (VInt 5432) "" st = (Raise AssertionError, st).
Proof.
  intros os st. split.
  - by apply (C9_invalid_default Demo.py os "psql.port" (VText "5432") "" st).
  - by apply (C9_invalid_default Demo.py os "psql.port" (VInt 5432) "" st).
Defined.

(** *** C10: malformed numbers are refused after the lookup *)

(** C10: when [getint] or [getfloat] is called on a key whose resolved value
    is malformed numeric text, the call raises [ValueError] after the lookup
    has completed: the sources were read and the record of the key is in the
    seen keys of the state the call leaves, which therefore differs from the
    state before whenever the record is new. *)
Theorem C10_malformed_number py os key default doc st text :
  (_get py os key default doc st).1 = Ok (VText text) →
  (is_none default || is_int default = true → int_of_text py text = None →
     ∃ st', getint py os key default doc st = (Raise ValueError, st')
            ∧ seen_keys (self st')
              = {[ seen_record (self st) key doc ]} ∪ seen_keys (self st)
            ∧ log st' = log st ++ consulted py os (self st) key default
            ∧ (seen_record (self st) key doc ∉ seen_keys (self st) → st' ≠ st))
  ∧ (is_none default || is_float default = true → float_of_text py text = None →
       ∃ st', getfloat py os key default doc st = (Raise ValueError, st')
              ∧ seen_keys (self st')
                = {[ seen_record (self st) key doc ]} ∪ seen_keys (self st)
              ∧ log st' = log st ++ consulted py os (self st) key default
              ∧ (seen_record (self st) key doc ∉ seen_keys (self st) → st' ≠ st)).
Proof.
  intros Hres. rewrite _get_result in Hres.
  assert (∀ st', seen_keys (self st')
                 = {[ seen_record (self st) key doc ]} ∪ seen_keys (self st) →
                 seen_record (self st) key doc ∉ seen_keys (self st) → st' ≠ st)
    as Hfresh.
  { intros st' Hseen Hnew ->. apply Hnew. rewrite Hseen.
    apply elem_of_union_l. by apply elem_of_singleton. }
  split.
  - intros Hd Hbad. rewrite getint_run, Hd, _get_resolved, Hres. simpl.
    unfold coerce_int. simpl. rewrite Hbad.
    eexists. split; [done|]. split_and!; [done..|]. by apply Hfresh.
  - intros Hd Hbad. rewrite getfloat_run, Hd, _get_resolved, Hres. simpl.
    unfold coerce_float. simpl. rewrite Hbad.
    eexists. split; [done|]. split_and!; [done..|]. by apply Hfresh.
Qed.

Lemma C10_malformed_number_witness :
  let os := Demo.os ∅ in
  let st := Demo.start (Demo.getter Demo.local_ini Demo.table) in
  ∃ st', getint Demo.py os "psql.port" (VInt 5432) "" st = (Raise ValueError, st')
         ∧ elements (seen_keys (self st'))
           = [ {| section := "psql"; entry := "port";
                  envvar := "APP_PSQL_PORT"; doc := "" |} ].
Proof.
  intros os st.
  destruct (C10_malformed_number Demo.py os "psql.port" (VInt 5432) "" st "54x2")
    as [Hint _]; [vm_compute; reflexivity|].
  destruct Hint as (st' & Hrun & Hseen & _); [reflexivity|vm_compute; reflexivity|].
  exists st'. split; [exact Hrun|]. rewrite Hseen. vm_compute. reflexivity.
Defined.

(** ** Further properties of the getter *)

(** *** Names of environment variables *)

Lemma has_lower_app a b :
  Text.has_lower (a +:+ b) = Text.has_lower a || Text.has_lower b.
Proof.
  induction a as [|c a IH]; [done|].
  rewrite app_cons. simpl. by rewrite IH, orb_assoc.
Qed.

Lemma upper_char_not_lower c : Text.is_lower (Text.upper_char c) = false.
Proof. by destruct c as [[] [] [] [] [] [] [] []]. Qed.

Lemma has_lower_upper s : Text.has_lower (Text.upper s) = false.
Proof.
  induction s as [|c s IH]; [done|].
  unfold Text.upper in *. simpl. by rewrite upper_char_not_lower, IH.
Qed.

Lemma upper_empty s : Text.upper s = "" → s = "".
Proof. by destruct s. Qed.

(** X1: [_env_key] only sees its arguments upper-cased: the name it builds has
    no lower-case ASCII letter, and namespaces, sections and keys that differ
    in case only name the same variable. *)
Theorem X1_env_key_ignores_case self key section :
  Text.has_lower (_env_key self key section) = false
  ∧ ∀ self' key' section',
      Text.upper (namespace self') = Text.upper (namespace self) →
      Text.upper section' = Text.upper section →
      Text.upper key' = Text.upper key →
      _env_key self' key' section' = _env_key self key section.
Proof.
  split.
  - unfold _env_key. destruct (Text.is_empty section); simpl;
      by rewrite !has_lower_app, !has_lower_upper.
  - intros self' key' section' Hns Hsec Hkey. unfold _env_key.
    destruct section as [|c section], section' as [|c' section']; simpl;
      try done; by rewrite ?Hns, ?Hkey, ?Hsec.
Qed.

Lemma X1_env_key_ignores_case_witness :
  _env_key (Demo.getter ∅ ∅) "Server" "PSQL"
  = _env_key (Demo.getter ∅ ∅) "server" "psql".
Proof.
  by apply (X1_env_key_ignores_case (Demo.getter ∅ ∅) "server" "psql").
Defined.

(** *** How a lookup key is split *)

Lemma split_dot_None s : Text.split_dot s = None ↔ Text.contains "." s = false.
Proof.
  induction s as [|c s IH]; [done|]. cbn [Text.split_dot Text.contains].
  destruct (Ascii.eqb c ".") eqn:Hc; cbn [orb]; [done|].
  rewrite <-IH. by destruct (Text.split_dot s) as [[a b]|].
Qed.

Lemma split_dot_Some s a b :
  Text.split_dot s = Some (a, b) →
  s = a +:+ "." +:+ b ∧ Text.contains "." a = false.
Proof.
  revert a. induction s as [|c s IH]; intros a; [done|].
  cbn [Text.split_dot].
  destruct (Ascii.eqb c ".") eqn:Hc.
  - intros [= <- <-]. apply Ascii.eqb_eq in Hc as ->. done.
  - destruct (Text.split_dot s) as [[a' b']|]; [|done].
    intros [= <- <-]. destruct (IH a' eq_refl) as [-> Ha].
    split; [done|]. cbn [Text.contains]. by rewrite Hc.
Qed.

(** The first dot of a dotted text splits it. *)
Lemma split_dot_app a b :
  Text.contains "." a = false →
  Text.split_dot (a +:+ "." +:+ b) = Some (a, b).
Proof.
  induction a as [|c a IH]; [done|]. cbn [Text.contains].
  destruct (Ascii.eqb c ".") eqn:Hc; [done|]. cbn [orb]. intros Ha.
  rewrite app_cons. cbn [Text.split_dot]. by rewrite Hc, IH.
Qed.

(** X2: a lookup that returns records its key cut at the first dot only.
    The part before the dot (empty for a key without a dot) has no dot; it
    is the section of the record, replaced by [DEFAULT] when it is empty, so
    a recorded section is never empty; what follows the dot, further dots
    included, is the entry; the variable name is built from the part before
    the dot as it is. *)
Theorem X2_key_split py os key default doc st v st' :
  _get py os key default doc st = (Ok v, st') →
  ∃ token entry,
    {| section := if Text.is_empty token then "DEFAULT" else token;
       entry := entry;
       envvar := _env_key (self st) entry token;
       doc := doc |} ∈ seen_keys (self st')
    ∧ Text.contains "." token = false
    ∧ (Text.contains "." key = false → token = "" ∧ entry = key)
    ∧ (Text.contains "." key = true → key = token +:+ "." +:+ entry).
Proof.
  intros Hget.
  assert (seen_record (self st) key doc ∈ seen_keys (self st')) as Hin.
  { pose proof (_get_self py os key default doc st) as Hself.
    rewrite Hget in Hself. cbn [snd] in Hself. rewrite Hself.
    rewrite <-(_get_result py os key default doc st), Hget.
    cbn [fst with_seen self seen_keys].
    apply elem_of_union_l. by apply elem_of_singleton. }
  exists (key_parts key).1, (key_parts key).2. split; [exact Hin|].
  unfold key_parts.
  destruct (Text.split_dot key) as [[token entry]|] eqn:Hsplit; cbn [fst snd].
  - destruct (split_dot_Some _ _ _ Hsplit) as [Hkey Htoken].
    split_and!; [done| |done]. intros Hno. apply split_dot_None in Hno. congruence.
  - apply split_dot_None in Hsplit. split_and!; [done|done|congruence].
Qed.

Lemma X2_key_split_witness :
  ∃ token entry,
    {| section := if Text.is_empty token then "DEFAULT" else token;
       entry := entry;
       envvar := _env_key (Demo.getter Demo.base_ini Demo.table) entry token;
       doc := "" |}
    ∈ seen_keys (self (_get Demo.py (Demo.os ∅) "psql.pool.size" VNone ""
                         (Demo.start (Demo.getter Demo.base_ini Demo.table))).2)
    ∧ Text.contains "." token = false
    ∧ (Text.contains "." "psql.pool.size" = false → token = "" ∧ entry = "psql.pool.size")
    ∧ (Text.contains "." "psql.pool.size" = true
       → "psql.pool.size" = token +:+ "." +:+ entry).
Proof.
  apply (X2_key_split Demo.py (Demo.os ∅) "psql.pool.size" VNone ""
           (Demo.start (Demo.getter Demo.base_ini Demo.table)) VNone).
  vm_compute. reflexivity.
Defined.

(** X3: a key that starts with a dot and has no other dot is the key without
    that dot: both have an empty section part, so they read the same
    variable, the same [DEFAULT] option and leave the same record. *)
Theorem X3_leading_dot py os key default doc st :
  Text.contains "." key = false →
  _get py os ("." +:+ key) default doc st = _get py os key default doc st.
Proof.
  intros Hno. rewrite !_get_resolve.
  unfold env_key_of, seen_record, env_key_of, key_parts.
  change ("." +:+ key) with ("" +:+ "." +:+ key).
  rewrite (split_dot_app "" key eq_refl).
  apply split_dot_None in Hno. by rewrite Hno.
Qed.

Lemma X3_leading_dot_witness :
  _get Demo.py (Demo.os ∅) ".env" VNone "" (Demo.start (Demo.getter Demo.base_ini ∅))
  = _get Demo.py (Demo.os ∅) "env" VNone "" (Demo.start (Demo.getter Demo.base_ini ∅)).
Proof.
  by apply (X3_leading_dot Demo.py (Demo.os ∅) "env" VNone ""
              (Demo.start (Demo.getter Demo.base_ini ∅))).
Defined.

(** *** The order of the sources *)

(** X4: a lookup reads the environment first and always; it reads the parsed
    store only when the variable is not set, and the default table only when
    the store has no value either.  Nothing else is read, and no source is
    read twice. *)
Theorem X4_read_order py os key default doc st :
  let section := config_section_of (key_parts key).1 in
  let entry := (key_parts key).2 in
  log (_get py os key default doc st).2
  = log st
    ++ match environ os !! env_key_of (self st) key with
       | Some _ => [EnvRead (env_key_of (self st) key)]
       | None =>
           match configparser.get_raw (parser (self st)) section entry with
           | Ok _ => [EnvRead (env_key_of (self st) key); ParserRead section entry]
           | Raise _ => [EnvRead (env_key_of (self st) key); ParserRead section entry;
                         DefaultsRead section entry]
           end
       end.
Proof.
  intros section entry. rewrite _get_resolve. unfold resolve. fold section entry.
  destruct (environ os !! env_key_of (self st) key) as [raw|].
  { by destruct (as_value (decode py raw)). }
  destruct (configparser.get_raw (parser (self st)) section entry)
    as [raw|e] eqn:Hraw.
  - destruct (get_present (interpolate py) _ _ _ _ Hraw) as (vars & _ & ->).
    destruct (interpolate py _ _ _ _) as [text|]; [|done].
    by destruct (as_value (decode py text)).
  - rewrite (get_absent (interpolate py) _ _ _ _ Hraw).
    by destruct (get_raw_raises _ _ _ _ Hraw) as [->| ->].
Qed.



(** X6: under Python 2 a value of the environment, or a value handed back
    by the parser's [get], that is not well-formed UTF-8 is fatal: the lookup
    raises [UnicodeDecodeError] where the value was read, does not fall back
    to the next source, and records nothing.  A stored value without a
    percent sign is handed back by [get] as it is, so that it is fatal when
    it is not well-formed. *)
Theorem X6_undecodable_value py os key default doc st raw :
  PY2 py = true → Text.utf8_valid raw = false →
  (environ os !! env_key_of (self st) key = Some raw →
     _get py os key default doc st
     = (Raise UnicodeDecodeError, logged st [EnvRead (env_key_of (self st) key)]))
  ∧ (environ os !! env_key_of (self st) key = None →
       configparser.get (interpolate py) (parser (self st))
         (config_section_of (key_parts key).1) (key_parts key).2 = Ok raw →
       _get py os key default doc st
       = (Raise UnicodeDecodeError,
          logged st [EnvRead (env_key_of (self st) key);
                     ParserRead (config_section_of (key_parts key).1)
                       (key_parts key).2]))
  ∧ (environ os !! env_key_of (self st) key = None →
       keeps_plain_text py →
       configparser.get_raw (parser (self st))
         (config_section_of (key_parts key).1) (key_parts key).2 = Ok raw →
       Text.contains "%" raw = false →
       _get py os key default doc st
       = (Raise UnicodeDecodeError,
          logged st [EnvRead (env_key_of (self st) key);
                     ParserRead (config_section_of (key_parts key).1)
                       (key_parts key).2])).
Proof.
  intros Hpy Hbad.
  assert (decode py raw = Raise UnicodeDecodeError) as Hdec.
  { unfold decode, Text.decode_utf8. by rewrite Hpy, Hbad. }
  split_and!.
  - intros Henv. rewrite _get_resolve. unfold resolve. by rewrite Henv, Hdec.
  - intros Henv Hget. rewrite _get_resolve. unfold resolve.
    by rewrite Henv, Hget, Hdec.
  - intros Henv Hplain Hraw Hno. rewrite _get_resolve. unfold resolve.
    by rewrite Henv, (get_plain py _ _ _ _ Hplain Hraw Hno), Hdec.
Qed.

Lemma X6_undecodable_value_witness :
  let os := Demo.os {[ "APP_NAME" := String (ascii_of_N 255) "" ]} in
  let st := Demo.start (Demo.getter Demo.base_ini Demo.table) in
  let st' :=
    Demo.start (Demo.getter {[ "DEFAULT" := {[ "name" := String (ascii_of_N 255) "" ]} ]}
                  Demo.table) in
  _get Demo.py os "name" (VText "app") "" st
  = (Raise UnicodeDecodeError, logged st [EnvRead "APP_NAME"])
  ∧ _get Demo.py (Demo.os ∅) "name" (VText "app") "" st'
    = (Raise UnicodeDecodeError,
       logged st' [EnvRead "APP_NAME"; ParserRead "DEFAULT" "name"]).
Proof.
  intros os st st'. split.
  - apply (X6_undecodable_value Demo.py os "name" (VText "app") "" st
             (String (ascii_of_N 255) "")); reflexivity.
  - destruct (X6_undecodable_value Demo.py (Demo.os ∅) "name" (VText "app") "" st'
                (String (ascii_of_N 255) "")) as (_ & _ & Hstored);
      [reflexivity..|].
    apply Hstored; [vm_compute; reflexivity|apply py_keeps_plain_text
                   |vm_compute; reflexivity|vm_compute; reflexivity].
Defined.

(** *** What the typed accessors return *)

(** X7: whenever it returns, [getbool] returns a boolean or none, [getint]
    an integer or none, [getfloat] a float or none and [getlist] a list or
    none, whatever the type of the value the sources gave. *)
Theorem X7_typed_results py os key default doc st v :
  ((getbool py os key default doc st).1 = Ok v → v = VNone ∨ ∃ b, v = VBool b)
  ∧ ((getint py os key default doc st).1 = Ok v → v = VNone ∨ ∃ n, v = VInt n)
  ∧ ((getfloat py os key default doc st).1 = Ok v → v = VNone ∨ ∃ f, v = VFloat f)
  ∧ (∀ sep, (getlist py os key default doc sep st).1 = Ok v →
            v = VNone ∨ ∃ items, v = VList items).
Proof.
  split_and!.
  - rewrite getbool_run. destruct (_ || _); [|done].
    rewrite then_coerce_get. destruct (resolved _ _ _ _ _) as [w|]; [|done].
    unfold coerced, coerce_bool. destruct (is_none w); intros [= <-]; eauto.
  - rewrite getint_run. destruct (_ || _); [|done].
    rewrite then_coerce_get. destruct (resolved _ _ _ _ _) as [w|]; [|done].
    unfold coerced, coerce_int. destruct (is_none w); [intros [= <-]; eauto|].
    destruct (py_int py w); [|done]. intros [= <-]; eauto.
  - rewrite getfloat_run. destruct (_ || _); [|done].
    rewrite then_coerce_get. destruct (resolved _ _ _ _ _) as [w|]; [|done].
    unfold coerced, coerce_float. destruct (is_none w); [intros [= <-]; eauto|].
    destruct (py_float py w); [|done]. intros [= <-]; eauto.
  - intros sep. rewrite getlist_run. destruct (_ || _ || _); [|done].
    rewrite then_coerce_get. destruct (resolved _ _ _ _ _) as [w|]; [|done].
    unfold coerced, coerce_list.
    destruct w; simpl; try done; try (intros [= <-]; eauto).
    destruct (py_split s sep); [|done]. intros [= <-]; eauto.
Qed.

Lemma X7_typed_results_witness :
  VBool true = VNone ∨ ∃ b, VBool true = VBool b.
Proof.
  apply (X7_typed_results Demo.py (Demo.os ∅) "debug" (VBool false) ""
           (Demo.start (Demo.getter ∅ {[ "DEFAULT" := {[ "debug" := VInt 1 ]} ]}))
           (VBool true)).
  vm_compute. reflexivity.
Defined.



(** *** What the calls leave alone *)

Lemma _get_frame py os key default doc st :
  let o := self (_get py os key default doc st).2 in
  parser o = parser (self st) ∧ namespace o = namespace (self st)
  ∧ defaults o = defaults (self st) ∧ search_files o = search_files (self st)
  ∧ found_files o = found_files (self st).
Proof.
  intros o. unfold o. rewrite _get_self. by destruct (resolved _ _ _ _ _).
Qed.

Lemma exec_frame py os c st :
  let o := self (exec py os c st) in
  parser o = parser (self st) ∧ namespace o = namespace (self st)
  ∧ defaults o = defaults (self st) ∧ search_files o = search_files (self st)
  ∧ found_files o = found_files (self st).
Proof.
  destruct c as [key default doc|key default doc|key default doc sep
                |key default doc|key default doc|key default doc|section key|];
    cbn [exec].
  - rewrite get_run. destruct (_ || _); [|done].
    apply (_get_frame py os key default doc (logged st [Warned])).
  - rewrite getstr_run. destruct (_ || _); [|done]. apply _get_frame.
  - rewrite getlist_run. destruct (_ || _ || _); [|done].
    rewrite then_coerce_state. destruct (is_text default); [|apply _get_frame].
    apply (_get_frame py os key default doc (logged st [Warned])).
  - rewrite getbool_run. destruct (_ || _); [|done].
    rewrite then_coerce_state. apply _get_frame.
  - rewrite getint_run. destruct (_ || _); [|done].
    rewrite then_coerce_state. apply _get_frame.
  - rewrite getfloat_run. destruct (_ || _); [|done].
    rewrite then_coerce_state. apply _get_frame.
  - unfold section_getitem. rewrite get_run. cbn [is_none is_text orb].
    apply (_get_frame py os _ _ _ (logged st [Warned])).
  - done.
Qed.

Lemma exec_all_frame py os calls st :
  let o := self (exec_all py os calls st) in
  parser o = parser (self st) ∧ namespace o = namespace (self st)
  ∧ defaults o = defaults (self st) ∧ search_files o = search_files (self st)
  ∧ found_files o = found_files (self st).
Proof.
  revert st. induction calls as [|c calls IH]; intros st; [done|].
  unfold exec_all in *. cbn [foldl]. cbv zeta in *.
  destruct (IH (exec py os c st)) as (-> & -> & -> & -> & ->).
  apply exec_frame.
Qed.

(** X9: no sequence of calls of the public methods, returning or raising,
    changes the parsed store, the namespace, the default table, the search
    patterns or the list of files found: after construction only the seen
    keys move. *)
Theorem X9_calls_keep_sources py os calls st :
  let o := self (exec_all py os calls st) in
  parser o = parser (self st) ∧ namespace o = namespace (self st)
  ∧ defaults o = defaults (self st) ∧ search_files o = search_files (self st)
  ∧ found_files o = found_files (self st).
Proof. apply exec_all_frame. Qed.

Lemma resolved_sources py os self1 self2 key default :
  parser self1 = parser self2 → namespace self1 = namespace self2 →
  defaults self1 = defaults self2 →
  resolved py os self1 key default = resolved py os self2 key default.
Proof.
  intros Hp Hn Hd.
  unfold resolved, resolve, env_key_of, _env_key, table_lookup.
  by rewrite Hp, Hn, Hd.
Qed.

(** X10: what an accessor returns does not depend on the calls made before
    it: after any sequence of calls of the public methods, each accessor
    returns for a key what it would have returned at first. *)
Theorem X10_results_independent_of_history py os calls st key default doc :
  (getstr py os key default doc (exec_all py os calls st)).1
  = (getstr py os key default doc st).1
  ∧ (getbool py os key default doc (exec_all py os calls st)).1
    = (getbool py os key default doc st).1
  ∧ (getint py os key default doc (exec_all py os calls st)).1
    = (getint py os key default doc st).1
  ∧ (getfloat py os key default doc (exec_all py os calls st)).1
    = (getfloat py os key default doc st).1
  ∧ (∀ sep, (getlist py os key default doc sep (exec_all py os calls st)).1
            = (getlist py os key default doc sep st).1).
Proof.
  destruct (exec_all_frame py os calls st) as (Hp & Hn & Hd & _).
  pose proof (resolved_sources py os _ _ key default Hp Hn Hd) as Hres.
  split_and!.
  - rewrite !getstr_run. destruct (_ || _); [|done]. by rewrite !_get_result.
  - rewrite !getbool_run. destruct (_ || _); [|done].
    by rewrite !then_coerce_get, Hres.
  - rewrite !getint_run. destruct (_ || _); [|done].
    by rewrite !then_coerce_get, Hres.
  - rewrite !getfloat_run. destruct (_ || _); [|done].
    by rewrite !then_coerce_get, Hres.
  - intros sep. rewrite !getlist_run. destruct (_ || _ || _); [|done].
    destruct (is_text default); rewrite !then_coerce_get; cbn [logged self];
      by rewrite Hres.
Qed.

(** *** The deprecated [get] and the section proxy *)




(** *** The constructor *)

(** The constructor sees its candidates through their normalised paths only. *)
Lemma init_normalised os ns config_files config_files' defaults :
  normalise os <$> omap id config_files = normalise os <$> omap id config_files' →
  __init__ os ns config_files defaults = __init__ os ns config_files' defaults.
Proof.
  intros Hsame.
  assert (collect_search_files os (config_files ++ [environ os !! config_variable ns])
          = collect_search_files os (config_files' ++ [environ os !! config_variable ns]))
    as Hsearch.
  { by rewrite !collect_search_files_spec, !omap_app, !fmap_app, Hsame. }
  rewrite !init_run. unfold final_config_files. by rewrite Hsearch.
Qed.

(** X13: a [None] among the candidate paths is skipped: the constructor
    builds the same object, or fails in the same way, as without it. *)
Theorem X13_none_candidate_skipped os ns before after defaults :
  __init__ os ns (before ++ None :: after) defaults
  = __init__ os ns (before ++ after) defaults.
Proof. apply init_normalised. by rewrite !omap_app. Qed.

(** X14: a candidate that names a directory stands for the pattern of its
    entries: replacing the directory by a path that normalises to
    [<directory>/*] (and is not itself a directory) changes nothing. *)
Theorem X14_directory_candidate os ns before after defaults dir pattern :
  isdir os (abspath os (expanduser os dir)) = true →
  abspath os (expanduser os pattern)
  = path_join (abspath os (expanduser os dir)) "*" →
  isdir os (abspath os (expanduser os pattern)) = false →
  __init__ os ns (before ++ Some dir :: after) defaults
  = __init__ os ns (before ++ Some pattern :: after) defaults.
Proof.
  intros Hdir Hpattern Hfile. apply init_normalised.
  rewrite !omap_app, !fmap_app. f_equal. cbn [omap list_omap id].
  rewrite !fmap_cons. f_equal. unfold normalise.
  by rewrite Hdir, Hfile, Hpattern.
Qed.

Lemma X14_directory_candidate_witness :
  __init__ (Demo.os ∅) "app" ([] ++ Some "/etc/app" :: [Some "nothing"]) None
  = __init__ (Demo.os ∅) "app" ([] ++ Some "/etc/app/*" :: [Some "nothing"]) None.
Proof.
  apply (X14_directory_candidate (Demo.os ∅) "app" [] [Some "nothing"] None
           "/etc/app" "/etc/app/*"); reflexivity.
Defined.

Lemma forallb_false {A} (p : A → bool) l :
  forallb p l = false → ∃ x, x ∈ l ∧ p x = false.
Proof.
  induction l as [|x l IH]; [done|]. simpl.
  destruct (p x) eqn:Hx; simpl.
  - intros (y & Hin & Hy)%IH. exists y. split; [by right|done].
  - intros _. exists x. split; [by left|done].
Qed.

(** X15: the constructor fails exactly when one of the files it found is
    malformed, and then with the parser's error; otherwise it returns an
    object with no seen key, the namespace as given, the default table (empty
    when none was given), and as found files the files of the final list
    that could be opened. *)
Theorem X15_construction os ns config_files table :
  ((∃ f, f ∈ final_config_files os ns config_files
         ∧ open_ini os f = configparser.Malformed)
   ↔ __init__ os ns config_files table = Raise ParsingError)
  ∧ (∀ e, __init__ os ns config_files table = Raise e → e = ParsingError)
  ∧ (∀ g, __init__ os ns config_files table = Ok g →
       seen_keys g = ∅ ∧ namespace g = ns ∧ defaults g = default ∅ table
       ∧ ∀ f, f ∈ found_files g
              ↔ f ∈ final_config_files os ns config_files
                ∧ ∃ content, open_ini os f = configparser.Ini content).
Proof.
  rewrite init_run.
  destruct (forallb _ (final_config_files os ns config_files)) eqn:Hok.
  - split_and!.
    + split; [|done]. intros (f & Hin & Hbad).
      rewrite forallb_forall in Hok. apply list_elem_of_In, Hok in Hin.
      unfold configparser.malformed in Hin. by rewrite Hbad in Hin.
    + done.
    + intros g [= <-]. cbn [seen_keys namespace defaults found_files].
      split_and!; [done..|]. intros f. rewrite list_elem_of_filter.
      unfold configparser.readable. split.
      * intros [Hr Hin]. split; [done|]. destruct (open_ini os f); by eauto.
      * intros [Hin [content Hc]]. split; [|done]. by rewrite Hc.
  - split_and!.
    + split; [done|]. intros _.
      apply forallb_false in Hok as (f & Hin & Hbad). exists f. split; [done|].
      unfold configparser.malformed in Hbad. by destruct (open_ini os f).
    + by intros e [= <-].
    + done.
Qed.

Lemma X15_construction_witness :
  ∃ g, __init__ (Demo.os ∅) "app" [Some "/etc/app"] None = Ok g
       ∧ seen_keys g = ∅ ∧ namespace g = "app" ∧ defaults g = ∅.
Proof.
  assert (∃ g, __init__ (Demo.os ∅) "app" [Some "/etc/app"] None = Ok g) as [g Hg]
    by (eexists; vm_compute; reflexivity).
  exists g. split; [exact Hg|].
  destruct (X15_construction (Demo.os ∅) "app" [Some "/etc/app"] None)
    as (_ & _ & Hobject).
  destruct (Hobject g Hg) as (Hseen & Hns & Htable & _). by split_and!.
Defined.

(** *** Errors of the coercions *)




(** *** When the caller's default matters *)




(** *** The records of the seen keys *)

Lemma seen_record_built self key doc :
  built_by_lookup self (seen_record self key doc).
Proof.
  exists (key_parts key).1. unfold seen_record, env_key_of, key_parts.
  destruct (Text.split_dot key) as [[token entry]|] eqn:Hsplit; cbn [fst snd].
  - by destruct (split_dot_Some _ _ _ Hsplit) as [_ Htoken].
  - done.
Qed.

Lemma built_by_lookup_namespace self1 self2 k :
  namespace self1 = namespace self2 →
  built_by_lookup self1 k → built_by_lookup self2 k.
Proof.
  intros Hns (token & Hdot & Hsec & Hvar). exists token.
  unfold _env_key in *. by rewrite <-Hns.
Qed.

Lemma _get_seen_origin py os key default doc st k :
  k ∈ seen_keys (self (_get py os key default doc st).2) →
  k ∈ seen_keys (self st) ∨ k = seen_record (self st) key doc.
Proof.
  rewrite _get_self. destruct (resolved _ _ _ _ _); [|by left].
  cbn [with_seen self seen_keys].
  intros [->%elem_of_singleton|Hin]%elem_of_union; [by right|by left].
Qed.

Lemma exec_seen_origin py os c st k :
  k ∈ seen_keys (self (exec py os c st)) →
  k ∈ seen_keys (self st) ∨ ∃ key doc, k = seen_record (self st) key doc.
Proof.
  assert (∀ key default doc st0, self st0 = self st →
            k ∈ seen_keys (self (_get py os key default doc st0).2) →
            k ∈ seen_keys (self st) ∨ ∃ key doc, k = seen_record (self st) key doc)
    as Hget.
  { intros key default doc st0 Hself Hin.
    apply _get_seen_origin in Hin. rewrite Hself in Hin.
    destruct Hin as [?|?]; [by left|right; eauto]. }
  destruct c as [key default doc|key default doc|key default doc sep
                |key default doc|key default doc|key default doc|section key|];
    cbn [exec].
  - rewrite get_run. destruct (_ || _); [|by left]. by apply Hget.
  - rewrite getstr_run. destruct (_ || _); [|by left]. by apply Hget.
  - rewrite getlist_run. destruct (_ || _ || _); [|by left].
    rewrite then_coerce_state. apply Hget. by destruct (is_text default).
  - rewrite getbool_run. destruct (_ || _); [|by left].
    rewrite then_coerce_state. by apply Hget.
  - rewrite getint_run. destruct (_ || _); [|by left].
    rewrite then_coerce_state. by apply Hget.
  - rewrite getfloat_run. destruct (_ || _); [|by left].
    rewrite then_coerce_state. by apply Hget.
  - unfold section_getitem. rewrite get_run. cbn [is_none is_text orb].
    by apply Hget.
  - by left.
Qed.

Lemma built_by_lookup_facts self k :
  built_by_lookup self k →
  section k ≠ "" ∧ Text.has_lower (envvar k) = false.
Proof.
  intros (token & _ & Hsec & Hvar). split.
  - rewrite Hsec. unfold config_section_of. by destruct token.
  - rewrite Hvar. unfold _env_key. destruct (Text.is_empty token); simpl;
      by rewrite !has_lower_app, !has_lower_upper.
Qed.

(** X18: the calls keep the seen keys well formed.  If every record seen so
    far was built by a lookup (as is the case after construction, when there
    is none), then so is every record after any sequence of calls of the
    public methods: its section is never empty and comes from a dot-free part
    of a key, and its variable name is the one [_env_key] gives for that part
    and its entry, without any lower-case ASCII letter. *)
Theorem X18_seen_records_well_formed py os calls st :
  (∀ k, k ∈ seen_keys (self st) → built_by_lookup (self st) k) →
  ∀ k, k ∈ seen_keys (self (exec_all py os calls st)) →
       built_by_lookup (self st) k
       ∧ section k ≠ "" ∧ Text.has_lower (envvar k) = false.
Proof.
  intros Hinit k Hin.
  enough (built_by_lookup (self st) k) as Hbuilt.
  { split; [done|]. by apply built_by_lookup_facts in Hbuilt. }
  revert st Hinit Hin. induction calls as [|c calls IH]; intros st Hinit Hin.
  { by apply Hinit. }
  unfold exec_all in *. cbn [foldl] in Hin.
  destruct (exec_frame py os c st) as (_ & Hns & _).
  apply (built_by_lookup_namespace (self (exec py os c st))); [done|].
  apply IH; [|done]. intros k' Hk'.
  apply (built_by_lookup_namespace (self st)); [done|].
  apply exec_seen_origin in Hk' as [?|(key & doc & ->)]; [by apply Hinit|].
  apply seen_record_built.
Qed.

Lemma X18_seen_records_well_formed_witness :
  let st := Demo.start (Demo.getter Demo.base_ini Demo.table) in
  let k := {| section := "psql"; entry := "pool.size";
              envvar := "APP_PSQL_POOL.SIZE"; doc := "" |} in
  built_by_lookup (self st) k ∧ section k ≠ "" ∧ Text.has_lower (envvar k) = false.
Proof.
  intros st k.
  apply (X18_seen_records_well_formed Demo.py (Demo.os ∅)
           [Getint "psql.pool.size" (VInt 5) ""; ListKeys] st).
  - intros k' Hk'. by apply elem_of_empty in Hk'.
  - vm_compute. reflexivity.
Defined.
